(** * Verification of [numpy/core/_dtype.py]

    A shallow embedding of the string rendering of NumPy data-type
    descriptors ([__str__], [__repr__] and their helpers) and the
    properties of it that the specification states.

    Conventions of the embedding.
    - A Python [str] is a [string]; a Python [int] is a [Z]; [None] is the
      [None] of [option].
    - A raised exception is the [Raise] case of [res]; the functions that
      can raise live in that error monad.
    - [dtype.names] and [dtype.fields] are held together as one association
      list in declaration order: the entry for a name is the tuple
      [dtype.fields[name]]. NumPy keeps the two in step (every name is a key
      of [fields], names are unique), so a loop
      [for name in dtype.names: ... dtype.fields[name]] is a traversal of
      that list.
    - The platform's byte order is a parameter of the development. *)

From Stdlib Require Import ZArith List String Ascii Bool Lia.
From Stdlib Require Import DecimalString DecimalZ DecimalPos.
Import ListNotations.

Open Scope string_scope.
Open Scope Z_scope.

(** ** Python values and exceptions *)

Inductive exn : Type :=
| RuntimeError (msg : string)
| TypeError (msg : string).

Inductive res (A : Type) : Type :=
| Ok (a : A)
| Raise (e : exn).

Arguments Ok {A} a.
Arguments Raise {A} e.

Definition bind {A B : Type} (m : res A) (k : A -> res B) : res B :=
  match m with
  | Ok a => k a
  | Raise e => Raise e
  end.

Notation "x <- m ;; k" := (bind m (fun x => k))
  (at level 61, m at next level, right associativity).

(** Evaluation of a list of computations from left to right; the first
    exception wins, as in a generator expression consumed by [join]. *)
Fixpoint mapM {A B : Type} (f : A -> res B) (l : list A) : res (list B) :=
  match l with
  | [] => Ok []
  | a :: l' => b <- f a ;; bs <- mapM f l' ;; Ok (b :: bs)
  end.

(** ["%d" % z] *)
Definition fmt_d (z : Z) : string := NilZero.string_of_int (Z.to_int z).

(** [sep.join(l)] *)
Definition join (sep : string) (l : list string) : string := String.concat sep l.

(** The characters that cannot be written inside a string literal. *)
Definition dquote : ascii := "034"%char.
Definition squote : ascii := "'"%char.
Definition backslash : ascii := "\"%char.

Fixpoint contains (c : ascii) (s : string) : bool :=
  match s with
  | EmptyString => false
  | String a s' => Ascii.eqb a c || contains c s'
  end.

Definition hex_digit (n : nat) : ascii :=
  match n with
  | 0%nat => "0" | 1%nat => "1" | 2%nat => "2" | 3%nat => "3"
  | 4%nat => "4" | 5%nat => "5" | 6%nat => "6" | 7%nat => "7"
  | 8%nat => "8" | 9%nat => "9" | 10%nat => "a" | 11%nat => "b"
  | 12%nat => "c" | 13%nat => "d" | 14%nat => "e" | _ => "f"
  end%char.

(** The escape of one character in the [repr] of a byte string. *)
Definition repr_char (quote c : ascii) : string :=
  let n := nat_of_ascii c in
  if Ascii.eqb c quote || Ascii.eqb c backslash then String backslash (String c "")
  else if Nat.eqb n 9 then String backslash "t"
  else if Nat.eqb n 10 then String backslash "n"
  else if Nat.eqb n 13 then String backslash "r"
  else if Nat.ltb n 32 || Nat.leb 127 n then
    String backslash (String "x" (String (hex_digit (n / 16)) (String (hex_digit (n mod 16)) "")))
  else String c "".

Fixpoint repr_chars (quote : ascii) (s : string) : string :=
  match s with
  | EmptyString => EmptyString
  | String c s' => repr_char quote c ++ repr_chars quote s'
  end.

(** [repr(s)] for a [str] [s]: single quotes, unless [s] holds a single
    quote and no double quote. *)
Definition repr (s : string) : string :=
  let quote := if contains squote s && negb (contains dquote s) then dquote else squote in
  String quote (repr_chars quote s ++ String quote "").

(** [s.rfind(c)]: the index of the last occurrence of [c], or -1. *)
Fixpoint rfind_from (i : Z) (c : ascii) (s : string) (found : Z) : Z :=
  match s with
  | EmptyString => found
  | String a s' => rfind_from (i + 1) c s' (if Ascii.eqb a c then i else found)
  end.

Definition rfind (s : string) (c : ascii) : Z := rfind_from 0 c s (-1).

Fixpoint drop (n : nat) (s : string) : string :=
  match n, s with
  | O, _ => s
  | S n', EmptyString => EmptyString
  | S n', String _ s' => drop n' s'
  end.

(** [s[i:]]: a negative index counts from the end and is clamped at 0. *)
Definition slice_from (s : string) (i : Z) : string :=
  let len := Z.of_nat (String.length s) in
  let start := if i <? 0 then Z.max 0 (i + len) else i in
  drop (Z.to_nat start) s.

(** [str(t)] for a tuple [t] of ints, as [format] renders a shape. *)
Definition tuple_str (t : list Z) : string :=
  match t with
  | [x] => "(" ++ fmt_d x ++ ",)"
  | _ => "(" ++ join ", " (map fmt_d t) ++ ")"
  end.

(** ** The descriptor *)

(** [dtype.type], the scalar class of a descriptor. The classes the code
    compares against are constructors of their own; any other class carries
    its [__module__], its [__name__] and whether it is a subclass of
    [np.number] and of [np.flexible]. *)
Inductive scalar_type : Type :=
| bool_
| object_
| string_
| unicode_
| void
| datetime64
| timedelta64
| scalar_class (module_ name_ : string) (sub_number sub_flexible : bool).

Definition scalar_type_eqb (a b : scalar_type) : bool :=
  match a, b with
  | bool_, bool_ | object_, object_ | string_, string_ | unicode_, unicode_
  | void, void | datetime64, datetime64 | timedelta64, timedelta64 => true
  | scalar_class m n u f, scalar_class m' n' u' f' =>
      String.eqb m m' && String.eqb n n' && Bool.eqb u u' && Bool.eqb f f'
  | _, _ => false
  end.

Notation "a == b" := (scalar_type_eqb a b) (at level 70, no associativity).

Definition __module__ (t : scalar_type) : string :=
  match t with
  | scalar_class m _ _ _ => m
  | _ => "numpy"
  end.

Definition __name__ (t : scalar_type) : string :=
  match t with
  | bool_ => "bool_"
  | object_ => "object_"
  | string_ => "string_"
  | unicode_ => "unicode_"
  | void => "void"
  | datetime64 => "datetime64"
  | timedelta64 => "timedelta64"
  | scalar_class _ n _ _ => n
  end.

(** [issubclass(t, np.flexible)] *)
Definition issubclass_flexible (t : scalar_type) : bool :=
  match t with
  | string_ | unicode_ | void => true
  | scalar_class _ _ _ f => f
  | _ => false
  end.

(** [issubclass(t, np.number)]; [np.timedelta64] derives from
    [np.signedinteger]. *)
Definition issubclass_number (t : scalar_type) : bool :=
  match t with
  | timedelta64 => true
  | scalar_class _ _ u _ => u
  | _ => false
  end.

(** The attributes of [np.dtype] that the module reads. An entry of
    [fields] is [(name, (dtype, offset, title))]. *)
#[warnings="-register-all"]
Inductive dtype : Type := mk_dtype {
  type : scalar_type;
  kind : ascii;
  byteorder : string;
  itemsize : Z;
  isnative : bool;
  isbuiltin : Z;
  isalignedstruct : bool;
  name : string;
  str : string;
  fields : option (list (string * (dtype * Z * option string)));
  subdtype : option (dtype * list Z)
}.

Definition field : Type := (string * (dtype * Z * option string))%type.

(** [dtype.names] *)
Definition names (d : dtype) : option (list string) :=
  option_map (map fst) (fields d).

(** [np.issubdtype(dtype, np.number)] *)
Definition issubdtype_number (d : dtype) : bool := issubclass_number (type d).

(** [_unpack_field], applied to the unpacked tuple stored in [fields], pads
    it with the title [None]; the stored tuples are held padded, so it
    returns its argument. *)
Definition _unpack_field (f : dtype * Z * option string) : dtype * Z * option string := f.

Definition _isunsized (d : dtype) : bool := itemsize d =? 0.

(** ** Byte order *)

Inductive endianness : Type := LittleEndian | BigEndian.

(** Modelled from the spec: [np.dtype(int)] and [dtype.newbyteorder] are
    NumPy's; the spec says that native resolves to whichever of [<] and [>]
    the platform's order is, that swapped is the opposite, and that the two
    come from swapping twice. [dtype_int_byteorder] is the byte order of
    [np.dtype(int)], and [newbyteorder_s] is the effect of
    [newbyteorder('s')] on a byte order. *)
Definition NPY_NATBYTE (p : endianness) : string :=
  match p with LittleEndian => "<" | BigEndian => ">" end.

Definition NPY_OPPBYTE (p : endianness) : string :=
  match p with LittleEndian => ">" | BigEndian => "<" end.

Definition dtype_int_byteorder : string := "=".

Definition newbyteorder_s (p : endianness) (bo : string) : string :=
  if String.eqb bo "|" then bo
  else if String.eqb bo "=" || String.eqb bo (NPY_NATBYTE p) then NPY_OPPBYTE p
  else NPY_NATBYTE p.

(** ** The rendering functions *)

Section Rendering.

Variable platform : endianness.

Definition _byte_order_str (d : dtype) : string :=
  let swapped := newbyteorder_s platform dtype_int_byteorder in
  let native := newbyteorder_s platform swapped in
  let byteorder' := byteorder d in
  if String.eqb byteorder' "=" then native
  else if String.eqb byteorder' "s" then swapped
  else if String.eqb byteorder' "|" then ""
  else byteorder'.

Definition _datetime_metadata_str (d : dtype) : string :=
  slice_from (name d) (rfind (name d) "[").

(** The table [kindstrs] of [_construction_repr]; [None] is a [KeyError]. *)
Definition kindstrs (k : ascii) : option string :=
  if Ascii.eqb k "u" then Some "uint"
  else if Ascii.eqb k "i" then Some "int"
  else if Ascii.eqb k "f" then Some "float"
  else if Ascii.eqb k "c" then Some "complex"
  else None.

Definition quoted (s : string) : string := "'" ++ s ++ "'".

(** The branches of [_construction_repr] below the structured and subarray
    cases: the chain of tests on [dtype.type]. The module imports true
    division, so [dtype.itemsize / 4] is a float, which [%d] truncates:
    [Z.quot]. *)
Definition _scalar_repr (d : dtype) (short : bool) : res string :=
  let byteorder' := _byte_order_str d in
  if type d == bool_ then
    if short then Ok "'?'" else Ok "'bool'"
  else if type d == object_ then
    Ok "'O'"
  else if type d == string_ then
    if _isunsized d then Ok "'S'"
    else Ok (quoted ("S" ++ fmt_d (itemsize d)))
  else if type d == unicode_ then
    if _isunsized d then Ok (quoted (byteorder' ++ "U"))
    else Ok (quoted (byteorder' ++ "U" ++ fmt_d (Z.quot (itemsize d) 4)))
  else if type d == void then
    if _isunsized d then Ok "'V'"
    else Ok (quoted ("V" ++ fmt_d (itemsize d)))
  else if type d == datetime64 then
    Ok (quoted (byteorder' ++ "M8" ++ _datetime_metadata_str d))
  else if type d == timedelta64 then
    Ok (quoted (byteorder' ++ "m8" ++ _datetime_metadata_str d))
  else if issubdtype_number d then
    if short || negb (String.eqb (byteorder d) "=" || String.eqb (byteorder d) "|") then
      Ok (quoted (byteorder' ++ String (kind d) "" ++ fmt_d (itemsize d)))
    else
      match kindstrs (kind d) with
      | Some kindstr => Ok (quoted (kindstr ++ fmt_d (8 * itemsize d)))
      | None =>
          Raise (RuntimeError
            ("internal dtype repr error, unknown kind " ++ repr (String (kind d) "")))
      end
  else if isbuiltin d =? 2 then
    Ok (__name__ (type d))
  else
    Raise (RuntimeError "Internal error: NumPy dtype unrecognized type number").

(** [_is_packed]: the loop over the fields, started at [total_offset]. *)
Fixpoint _is_packed_loop (total_offset : Z) (flds : list field) (size : Z) : bool :=
  match flds with
  | [] => if negb (total_offset =? size) then false else true
  | (_, f) :: rest =>
      let '(fld_dtype, fld_offset, title) := _unpack_field f in
      if negb (fld_offset =? total_offset) then false
      else _is_packed_loop (total_offset + itemsize fld_dtype) rest size
  end.

Definition not_iterable : exn := TypeError "'NoneType' object is not iterable".

Definition _is_packed (d : dtype) : res bool :=
  match fields d with
  | None => Raise not_iterable
  | Some flds => Ok (_is_packed_loop 0 flds (itemsize d))
  end.

(** [repr(title)]: a title is a [str] or [None]. *)
Definition repr_title (title : option string) : string :=
  match title with
  | Some t => repr t
  | None => "None"
  end.

Definition is_not_None {A : Type} (o : option A) : bool :=
  match o with Some _ => true | None => false end.

Section OpenRecursion.

(** The serializers of structured and subarray descriptors call
    [_construction_repr] on the descriptors nested in their argument; they
    are first written over that recursive call [self]. *)
Variable self : dtype -> bool -> bool -> res string.

Definition _struct_dict_str_open (d : dtype) (includealignedflag : bool) : res string :=
  match fields d with
  | None => Raise not_iterable
  | Some flds =>
      let names := map fst flds in
      let offsets := map (fun nf => let '(_, offset, _) := _unpack_field (snd nf) in offset) flds in
      let titles := map (fun nf => let '(_, _, title) := _unpack_field (snd nf) in title) flds in
      let ret := "{'names':[" in
      let ret := ret ++ join "," (map repr names) in
      let ret := ret ++ "], 'formats':[" in
      formats <- mapM (fun nf => let '(fld_dtype, _, _) := _unpack_field (snd nf) in
                                 self fld_dtype false true) flds ;;
      let ret := ret ++ join "," formats in
      let ret := ret ++ "], 'offsets':[" in
      let ret := ret ++ join "," (map fmt_d offsets) in
      let ret :=
        if existsb is_not_None titles
        then (ret ++ "], 'titles':[") ++ join "," (map repr_title titles)
        else ret in
      let ret := ret ++ "], 'itemsize':" ++ fmt_d (itemsize d) in
      if includealignedflag && isalignedstruct d
      then Ok (ret ++ ", 'aligned':True}")
      else Ok (ret ++ "}")
  end.

(** One item of [_struct_list_str]. *)
Definition _struct_list_item_open (nf : field) : res string :=
  let name := fst nf in
  let '(fld_dtype, fld_offset, title) := _unpack_field (snd nf) in
  let item := "(" in
  let item :=
    match title with
    | Some t => item ++ "(" ++ repr t ++ ", " ++ repr name ++ "), "
    | None => item ++ repr name ++ ", "
    end in
  match subdtype fld_dtype with
  | Some (base, shape) =>
      r <- self base false true ;;
      Ok ((item ++ r ++ ", " ++ tuple_str shape) ++ ")")
  | None =>
      r <- self fld_dtype false true ;;
      Ok ((item ++ r) ++ ")")
  end.

Definition _struct_list_str_open (d : dtype) : res string :=
  match fields d with
  | None => Raise not_iterable
  | Some flds =>
      items <- mapM _struct_list_item_open flds ;;
      Ok ("[" ++ join ", " items ++ "]")
  end.

(** The local [sub] of [_struct_str]. *)
Definition _struct_sub_open (d : dtype) (include_align : bool) : res string :=
  if negb (include_align && isalignedstruct d)
  then
    packed <- _is_packed d ;;
    if packed then _struct_list_str_open d
    else _struct_dict_str_open d include_align
  else _struct_dict_str_open d include_align.

Definition _struct_str_open (d : dtype) (include_align : bool) : res string :=
  sub <- _struct_sub_open d include_align ;;
  if negb (type d == void)
  then Ok ("(" ++ __module__ (type d) ++ "." ++ __name__ (type d) ++ ", " ++ sub ++ ")")
  else Ok sub.

Definition _subarray_str_open (d : dtype) : res string :=
  match subdtype d with
  | None => Raise not_iterable
  | Some (base, shape) =>
      r <- self base false true ;;
      Ok ("(" ++ r ++ ", " ++ tuple_str shape ++ ")")
  end.

Definition _construction_repr_open (d : dtype) (include_align short : bool) : res string :=
  if is_not_None (fields d) then _struct_str_open d include_align
  else if is_not_None (subdtype d) then _subarray_str_open d
  else _scalar_repr d short.

End OpenRecursion.

Fixpoint _construction_repr (d : dtype) (include_align short : bool) {struct d} : res string :=
  _construction_repr_open _construction_repr d include_align short.

Definition _struct_dict_str : dtype -> bool -> res string :=
  _struct_dict_str_open _construction_repr.

Definition _struct_list_str : dtype -> res string :=
  _struct_list_str_open _construction_repr.

Definition _struct_sub : dtype -> bool -> res string :=
  _struct_sub_open _construction_repr.

Definition _struct_str : dtype -> bool -> res string :=
  _struct_str_open _construction_repr.

Definition _subarray_str : dtype -> res string :=
  _subarray_str_open _construction_repr.

Definition _struct_repr (d : dtype) : res string :=
  let s := "dtype(" in
  r <- _struct_str d false ;;
  let s := s ++ r in
  let s := if isalignedstruct d then s ++ ", align=True" else s in
  Ok (s ++ ")").

Definition __str__ (d : dtype) : res string :=
  if is_not_None (fields d) then _struct_str d true
  else if is_not_None (subdtype d) then _subarray_str d
  else if issubclass_flexible (type d) || negb (isnative d) then Ok (str d)
  else Ok (name d).

Definition __repr__ (d : dtype) : res string :=
  if is_not_None (fields d) then _struct_repr d
  else
    r <- _construction_repr d true false ;;
    Ok ("dtype(" ++ r ++ ")").

End Rendering.

(** ** Notions used in the statements *)

(** The components of an entry of [fields]. *)
Definition fld_dtype_of (nf : field) : dtype := fst (fst (snd nf)).
Definition fld_offset_of (nf : field) : Z := snd (fst (snd nf)).
Definition fld_title_of (nf : field) : option string := snd (snd nf).


(** The sum of the item sizes of the first [i] fields. *)
Definition sizes_before (flds : list field) (i : nat) : Z :=
  fold_right Z.add 0 (map (fun nf => itemsize (fld_dtype_of nf)) (firstn i flds)).

(** Packedness in the words of the specification: every field, in
    declaration order, starts where the sizes of the fields before it end
    (the first one at 0), and the sizes of all the fields add up to the item
    size of the descriptor. *)
Definition packed_layout (flds : list field) (size : Z) : Prop :=
  (forall i nf, nth_error flds i = Some nf -> fld_offset_of nf = sizes_before flds i)
  /\ sizes_before flds (List.length flds) = size.

(** The two errors of [_construction_repr]. *)
Definition unknown_kind_error (d : dtype) : exn :=
  RuntimeError ("internal dtype repr error, unknown kind " ++ repr (String (kind d) "")).

Definition unrecognized_error : exn :=
  RuntimeError "Internal error: NumPy dtype unrecognized type number".

Definition is_leaf (d : dtype) : bool :=
  negb (is_not_None (fields d)) && negb (is_not_None (subdtype d)).

(** [dtype.type] is none of the seven classes that [_construction_repr]
    tests by name. *)
Definition unnamed_class (t : scalar_type) : bool :=
  match t with
  | scalar_class _ _ _ _ => true
  | _ => false
  end.

(** Situation (a): a numeric scalar descriptor that takes the long spelling
    and whose kind is not in [kindstrs]. *)
Definition long_numeric_unknown_kind (d : dtype) (short : bool) : bool :=
  is_leaf d && unnamed_class (type d) && issubdtype_number d
  && negb (short || negb (String.eqb (byteorder d) "=" || String.eqb (byteorder d) "|"))
  && negb (is_not_None (kindstrs (kind d))).

(** Situation (b): a scalar descriptor that no branch recognizes. *)
Definition unrecognized (d : dtype) : bool :=
  is_leaf d && unnamed_class (type d) && negb (issubdtype_number d)
  && negb (isbuiltin d =? 2).

(** No descriptor nested in [d], nor [d] itself, is in situation (b). *)
Fixpoint all_recognized (d : dtype) : bool :=
  match d with
  | mk_dtype _ _ _ _ _ _ _ _ _ fl sd =>
      negb (unrecognized d)
      && match fl with
         | Some l => forallb (fun nf : field => all_recognized (fst (fst (snd nf)))) l
         | None => true
         end
      && match sd with
         | Some (base, _) => all_recognized base
         | None => true
         end
  end.

(** The text of the dict form over its parallel sequences. *)
Definition dict_form (names formats : list string) (offsets : list Z)
    (titles : list (option string)) (size : Z) (aligned : bool) : string :=
  "{'names':[" ++ join "," (map repr names)
  ++ "], 'formats':[" ++ join "," formats
  ++ "], 'offsets':[" ++ join "," (map fmt_d offsets)
  ++ (if existsb is_not_None titles
      then "], 'titles':[" ++ join "," (map repr_title titles)
      else "")
  ++ "], 'itemsize':" ++ fmt_d size
  ++ (if aligned then ", 'aligned':True}" else "}").

(** The type-identity wrapping of [_struct_str]. *)
Definition type_identity_wrap (t : scalar_type) (sub : string) : string :=
  "(" ++ __module__ t ++ "." ++ __name__ t ++ ", " ++ sub ++ ")".

(** The canonical repr of a structured descriptor in the words of the
    specification: the builder output with include-alignment = true, wrapped
    in [dtype(...)], with [, align=True] when the flag is set. *)
Definition spec_struct_repr (platform : endianness) (d : dtype) : res string :=
  r <- _construction_repr platform d true false ;;
  Ok ("dtype(" ++ r ++ (if isalignedstruct d then ", align=True" else "") ++ ")").

(** Two calls of [__repr__] in sequence. *)
Definition repr_twice (platform : endianness) (d : dtype) : res (string * string) :=
  r1 <- __repr__ platform d ;;
  r2 <- __repr__ platform d ;;
  Ok (r1, r2).




(** [s.startswith(p)] *)
Fixpoint starts_with (p s : string) : bool :=
  match p with
  | EmptyString => true
  | String a p' =>
      match s with
      | EmptyString => false
      | String b s' => Ascii.eqb a b && starts_with p' s'
      end
  end.

(** The last character of a string. *)
Fixpoint last_char (s : string) : option ascii :=
  match s with
  | EmptyString => None
  | String c EmptyString => Some c
  | String _ s' => last_char s'
  end.







(** The number of items of a shape. *)
Definition shape_size (shape : list Z) : Z := fold_right Z.mul 1 shape.

(** Modelled from the spec: the descriptor type and its constructor are
    NumPy's. What holds of a scalar descriptor that NumPy builds for one of
    its own scalar types, on a platform with the given byte order and size
    of an object reference: the kind character goes with the class; a
    boolean has 1 byte, an object reference [intp] bytes, a datetime or
    timedelta 8, a unicode string a multiple of 4, a number at least 1; the
    byte order is ['|'] for the classes without one and for single bytes,
    and otherwise ['='] or the order opposite to the platform's (the
    platform's own order is always stored as ['=']); the unit of a datetime
    holds no quote. A class outside NumPy's own is not covered. *)
Definition scalar_well_formed (platform : endianness) (intp : Z) (d : dtype) : bool :=
  let not_applicable := String.eqb (byteorder d) "|" in
  let native_or_swapped :=
    String.eqb (byteorder d) "=" || String.eqb (byteorder d) (NPY_OPPBYTE platform) in
  match type d with
  | bool_ => Ascii.eqb (kind d) "b" && (itemsize d =? 1) && not_applicable
  | object_ => Ascii.eqb (kind d) "O" && (itemsize d =? intp) && not_applicable
  | string_ => Ascii.eqb (kind d) "S" && (0 <=? itemsize d) && not_applicable
  | unicode_ =>
      Ascii.eqb (kind d) "U" && (0 <=? itemsize d) && (itemsize d mod 4 =? 0)
      && native_or_swapped
  | void => Ascii.eqb (kind d) "V" && (0 <=? itemsize d) && not_applicable
  | datetime64 =>
      Ascii.eqb (kind d) "M" && (itemsize d =? 8) && native_or_swapped
      && negb (contains squote (_datetime_metadata_str d))
  | timedelta64 =>
      Ascii.eqb (kind d) "m" && (itemsize d =? 8) && native_or_swapped
      && negb (contains squote (_datetime_metadata_str d))
  | scalar_class _ _ number _ =>
      number && is_not_None (kindstrs (kind d)) && (0 <? itemsize d)
      && (if itemsize d =? 1 then not_applicable else native_or_swapped)
  end.

(** Modelled from the spec: the descriptor type and its constructor are
    NumPy's. A descriptor as NumPy builds it from its own scalar types,
    subarrays and plain ([np.void]) structured types: it has fields, or a
    subarray, or is a scalar as above; a structured or subarray descriptor
    has kind [V] and byte order ['|']; offsets, item sizes and shape entries
    are not negative; the item size of a subarray is that of its base times
    the number of items of its shape; and the same holds of every
    descriptor nested in it. *)
Fixpoint well_formed (platform : endianness) (intp : Z) (d : dtype) : bool :=
  match d with
  | mk_dtype t k bo sz _ _ _ _ _ fl sd =>
      match fl, sd with
      | Some l, None =>
          (t == void) && Ascii.eqb k "V" && String.eqb bo "|" && (0 <=? sz)
          && forallb (fun nf : field =>
                        well_formed platform intp (fst (fst (snd nf)))
                        && (0 <=? snd (fst (snd nf)))) l
      | None, Some (base, shape) =>
          (t == void) && Ascii.eqb k "V" && String.eqb bo "|"
          && well_formed platform intp base
          && forallb (fun n => 0 <=? n) shape
          && (sz =? itemsize base * shape_size shape)
      | None, None => scalar_well_formed platform intp d
      | Some _, Some _ => false
      end
  end.








(** A field has a non-empty title, in the words of the specification: a
    title that is a string other than the empty one. *)
Definition has_nonempty_title (nf : field) : bool :=
  match fld_title_of nf with
  | Some t => negb (String.eqb t "")
  | None => false
  end.

(** The text of one tuple of the list form: the name (with its title, when
    there is one), the format, and the shape when the field is a subarray. *)
Definition list_item (name : string) (title : option string) (format : string)
    (shape : option (list Z)) : string :=
  "("
  ++ match title with
     | Some t => "(" ++ repr t ++ ", " ++ repr name ++ "), "
     | None => repr name ++ ", "
     end
  ++ format
  ++ match shape with
     | Some sh => ", " ++ tuple_str sh
     | None => ""
     end
  ++ ")".

(** The descriptor whose format the list form shows for a field, and the
    shape shown with it: the base and the shape of a subarray field, the
    type of any other field. *)
Definition list_item_target (nf : field) : dtype * option (list Z) :=
  match subdtype (fld_dtype_of nf) with
  | Some (base, shape) => (base, Some shape)
  | None => (fld_dtype_of nf, None)
  end.

(** ** Sample descriptors *)

Module Samples.

Definition int32 : dtype :=
  mk_dtype (scalar_class "numpy" "int32" true false) "i" "=" 4 true 1 false
    "int32" "<i4" None None.

Definition float64 : dtype :=
  mk_dtype (scalar_class "numpy" "float64" true false) "f" "=" 8 true 1 false
    "float64" "<f8" None None.

(** Three [int32] fields at offsets 0, 4 and 8; the second has a title. *)
Definition three_ints (aligned : bool) (size : Z) : dtype :=
  mk_dtype void "V" "|" size true 0 aligned "void" "|V"
    (Some [("a", (int32, 0, None)); ("b", (int32, 4, Some "t1")); ("c", (int32, 8, None))])
    None.

(** [np.dtype([('x', 'i4')], align=aligned)] *)
Definition one_int (aligned : bool) : dtype :=
  mk_dtype void "V" "|" 4 true 0 aligned "void32" "|V4"
    (Some [("x", (int32, 0, None))]) None.

(** [np.dtype(('i4', (2, 3)))] *)
Definition int32_2x3 : dtype :=
  mk_dtype void "V" "|" 24 true 0 false "void192" "|V24" None (Some (int32, [2; 3])).

(** [np.dtype([('a', one_int aligned)])] *)
Definition nested (aligned : bool) : dtype :=
  mk_dtype void "V" "|" 4 true 0 false "void32" "|V4"
    (Some [("a", (one_int aligned, 0, None))]) None.

(** A record type over a structured field and a subarray field. *)
Definition record (aligned : bool) : dtype :=
  mk_dtype (scalar_class "numpy" "record" false true) "V" "|" 36 true 0 false
    "record288" "|V36"
    (Some [("x", (three_ints aligned 12, 0, None)); ("y", (int32_2x3, 12, None))]) None.

(** [np.dtype('M8')], the datetime without a unit. *)
Definition datetime_generic : dtype :=
  mk_dtype datetime64 "M" "=" 8 true 1 false "datetime64" "<M8" None None.

(** A class derived from [np.number] with a kind outside u, i, f, c. *)
Definition odd_number : dtype :=
  mk_dtype (scalar_class "numpy" "odd" true false) "x" "=" 4 true 1 false
    "odd32" "<x4" None None.

(** A scalar class that no branch of [_construction_repr] covers. *)
Definition stranger : dtype :=
  mk_dtype (scalar_class "elsewhere" "stranger" false false) "x" "=" 4 true 0 false
    "stranger" "<x4" None None.

End Samples.

Module MoreSamples.

(** [np.dtype('M8[ns]')] *)
Definition datetime_ns : dtype :=
  mk_dtype datetime64 "M" "=" 8 true 1 false "datetime64[ns]" "<M8[ns]" None None.

(** [np.dtype('>i4')] on a little-endian platform. *)
Definition int32_big : dtype :=
  mk_dtype (scalar_class "numpy" "int32" true false) "i" ">" 4 false 1 false
    "int32" ">i4" None None.

(** A float of byte order ['<'], as a descriptor read from a file has. *)
Definition float64_little : dtype :=
  mk_dtype (scalar_class "numpy" "float64" true false) "f" "<" 8 true 1 false
    "float64" "<f8" None None.

(** A subarray of a class that no branch covers. *)
Definition strangers : dtype :=
  mk_dtype void "V" "|" 8 true 0 false "void64" "|V8" None
    (Some (Samples.stranger, [2])).

(** One [int32] field in 8 bytes whose title is the empty string. *)
Definition empty_title : dtype :=
  mk_dtype void "V" "|" 8 true 0 false "void64" "|V8"
    (Some [("a", (Samples.int32, 0, Some ""))]) None.

(** A registered scalar class outside NumPy's own ([isbuiltin] is 2). *)
Definition rational : dtype :=
  mk_dtype (scalar_class "rational" "rational" false false) "V" "=" 8 true 2 false
    "rational" "<V8" None None.

End MoreSamples.

Example repr_int32 : __repr__ LittleEndian Samples.int32 = Ok "dtype('int32')".
Proof. reflexivity. Qed.

Example repr_three_ints_packed :
  __repr__ LittleEndian (Samples.three_ints false 12)
  = Ok "dtype([('a', '<i4'), (('t1', 'b'), '<i4'), ('c', '<i4')])".
Proof. reflexivity. Qed.

Example repr_three_ints_padded :
  __repr__ LittleEndian (Samples.three_ints false 16)
  = Ok "dtype({'names':['a','b','c'], 'formats':['<i4','<i4','<i4'], 'offsets':[0,4,8], 'titles':[None,'t1',None], 'itemsize':16})".
Proof. reflexivity. Qed.

Example str_three_ints_aligned :
  __str__ LittleEndian (Samples.three_ints true 12)
  = Ok "{'names':['a','b','c'], 'formats':['<i4','<i4','<i4'], 'offsets':[0,4,8], 'titles':[None,'t1',None], 'itemsize':12, 'aligned':True}".
Proof. reflexivity. Qed.

Example repr_subarray :
  __repr__ LittleEndian Samples.int32_2x3 = Ok "dtype(('<i4', (2, 3)))".
Proof. reflexivity. Qed.

Example repr_record :
  __repr__ BigEndian (Samples.record false)
  = Ok "dtype((numpy.record, [('x', [('a', '>i4'), (('t1', 'b'), '>i4'), ('c', '>i4')]), ('y', '>i4', (2, 3))]))".
Proof. reflexivity. Qed.

(** The name of a datetime without a unit holds no bracket: [rfind] gives
    -1 and the slice is the last character of the name. *)
Example repr_datetime_generic :
  __repr__ LittleEndian Samples.datetime_generic = Ok "dtype('<M84')".
Proof. reflexivity. Qed.

(** ** Induction on descriptors *)

Section DtypeInduction.

Variable P : dtype -> Prop.

Hypothesis step : forall d,
  (forall flds, fields d = Some flds -> Forall (fun nf => P (fld_dtype_of nf)) flds) ->
  (forall base shape, subdtype d = Some (base, shape) -> P base) ->
  P d.

Lemma dtype_nested_ind : forall d, P d.
Proof.
  fix dtype_nested_ind 1. intros d.
  apply step.
  - destruct d as [t k bo sz nat bi al nm st fl sd]; simpl.
    intros flds E. destruct fl as [l|]; [|discriminate].
    injection E as <-.
    induction l as [|[n [[dt off] ti]] l IH]; constructor.
    + apply dtype_nested_ind.
    + exact IH.
  - destruct d as [t k bo sz nat bi al nm st fl sd]; simpl.
    intros base shape E. destruct sd as [[b sh]|]; [|discriminate].
    injection E as <- _. apply dtype_nested_ind.
Qed.

End DtypeInduction.

(** ** Basic facts *)

Lemma append_assoc (a b c : string) : ((a ++ b) ++ c = a ++ (b ++ c))%string.
Proof. induction a as [|x a IH]; simpl; [reflexivity | now rewrite IH]. Qed.

(** Strings built by concatenation are compared with the concatenations
    pushed to the right. *)
Ltac string_norm :=
  repeat (progress (cbn [bind append]; rewrite ?append_assoc)).

Lemma bind_inv_Ok {A B : Type} (m : res A) (k : A -> res B) (b : B) :
  bind m k = Ok b -> exists a, m = Ok a /\ k a = Ok b.
Proof. destruct m as [a|e]; simpl; [eauto | discriminate]. Qed.

Lemma bind_inv_Raise {A B : Type} (m : res A) (k : A -> res B) (e : exn) :
  bind m k = Raise e -> m = Raise e \/ exists a, m = Ok a /\ k a = Raise e.
Proof. destruct m as [a|e']; simpl; [eauto | intros [= ->]; now left]. Qed.

Lemma mapM_Forall2 {A B : Type} (f : A -> res B) (l : list A) (bs : list B) :
  mapM f l = Ok bs <-> Forall2 (fun a b => f a = Ok b) l bs.
Proof.
  revert bs. induction l as [|a l IH]; intros bs; simpl.
  - split.
    + intros [= <-]. constructor.
    + intros H. inversion H. reflexivity.
  - split.
    + intros H. apply bind_inv_Ok in H as [b [Hb H]].
      apply bind_inv_Ok in H as [bs' [Hbs [= <-]]].
      constructor; [exact Hb | now apply IH].
    + intros H. inversion H as [|a' b l' bs' Hb Hbs]; subst.
      rewrite Hb. simpl. apply IH in Hbs. rewrite Hbs. reflexivity.
Qed.

Lemma mapM_ext_Forall {A B : Type} (f g : A -> res B) (l : list A) :
  Forall (fun a => f a = g a) l -> mapM f l = mapM g l.
Proof.
  induction 1 as [|a l Ha _ IH]; simpl; [reflexivity|].
  now rewrite Ha, IH.
Qed.


Lemma mapM_Raise {A B : Type} (f : A -> res B) (l : list A) (e : exn) :
  mapM f l = Raise e -> exists a, In a l /\ f a = Raise e.
Proof.
  induction l as [|a l IH]; simpl; [discriminate|].
  intros H. apply bind_inv_Raise in H as [H | [b [Hb H]]].
  - exists a. auto.
  - apply bind_inv_Raise in H as [H | [bs [_ H]]]; [|discriminate].
    destruct (IH H) as [a' [Hin Ha']]. exists a'. auto.
Qed.

Lemma mapM_total {A B : Type} (f : A -> res B) (l : list A) :
  Forall (fun a => exists b, f a = Ok b) l -> exists bs, mapM f l = Ok bs.
Proof.
  induction 1 as [|a l [b Hb] _ [bs IH]]; simpl; [eauto|].
  rewrite Hb, IH. simpl. eauto.
Qed.

Lemma _construction_repr_eq (platform : endianness) (d : dtype) (include_align short : bool) :
  _construction_repr platform d include_align short
  = if is_not_None (fields d) then _struct_str platform d include_align
    else if is_not_None (subdtype d) then _subarray_str platform d
    else _scalar_repr platform d short.
Proof. destruct d; reflexivity. Qed.

(** ** The byte-order normalizer *)

(** C7. [_byte_order_str] is a total function to strings: for the byte
    order ['='] it returns the native order character of the platform, for
    ['s'] the opposite one, for ['|'] the empty string, and any other byte
    order unchanged; the native character is ['<'] or ['>'] and the swapped
    one is the other of the two. *)
Theorem byte_order_str_spec (platform : endianness) (d : dtype) :
  (byteorder d = "=" -> _byte_order_str platform d = NPY_NATBYTE platform)
  /\ (byteorder d = "s" -> _byte_order_str platform d = NPY_OPPBYTE platform)
  /\ (byteorder d = "|" -> _byte_order_str platform d = "")
  /\ (byteorder d <> "=" -> byteorder d <> "s" -> byteorder d <> "|" ->
      _byte_order_str platform d = byteorder d)
  /\ ((NPY_NATBYTE platform = "<" /\ NPY_OPPBYTE platform = ">")
      \/ (NPY_NATBYTE platform = ">" /\ NPY_OPPBYTE platform = "<")).
Proof.
  unfold _byte_order_str.
  repeat split.
  - intros ->. destruct platform; reflexivity.
  - intros ->. destruct platform; reflexivity.
  - intros ->. reflexivity.
  - intros H1 H2 H3.
    apply String.eqb_neq in H1, H2, H3. now rewrite H1, H2, H3.
  - destruct platform; [left | right]; split; reflexivity.
Qed.

Lemma byte_order_str_spec_witness :
  _byte_order_str LittleEndian Samples.float64 = "<"
  /\ _byte_order_str BigEndian Samples.float64 = ">".
Proof.
  split.
  - apply (proj1 (byte_order_str_spec LittleEndian Samples.float64)). reflexivity.
  - apply (proj1 (byte_order_str_spec BigEndian Samples.float64)). reflexivity.
Defined.

(** ** The packedness analyzer *)

Lemma sizes_before_cons (nf : field) (flds : list field) (i : nat) :
  sizes_before (nf :: flds) (S i) = itemsize (fld_dtype_of nf) + sizes_before flds i.
Proof. reflexivity. Qed.

Lemma _is_packed_loop_spec (flds : list field) : forall (t size : Z),
  _is_packed_loop t flds size = true <->
  (forall i nf, nth_error flds i = Some nf -> fld_offset_of nf = t + sizes_before flds i)
  /\ t + sizes_before flds (List.length flds) = size.
Proof.
  induction flds as [|[n [[dt off] ti]] flds IH]; intros t size.
  - simpl. unfold sizes_before. simpl. split.
    + intros H. split.
      * intros [|i] nf; discriminate.
      * destruct (Z.eqb_spec t size); [lia | discriminate].
    + intros [_ H]. destruct (Z.eqb_spec t size); [reflexivity | lia].
  - cbn [_is_packed_loop _unpack_field]. split.
    + intros H. destruct (Z.eqb_spec off t) as [->|]; [|discriminate].
      cbn [negb] in H. apply IH in H as [Hoff Hsum]. split.
      * intros [|i] nf Hn.
        -- injection Hn as <-. unfold fld_offset_of, sizes_before. simpl. lia.
        -- rewrite sizes_before_cons. cbn [nth_error] in Hn.
           rewrite (Hoff i nf Hn). unfold fld_dtype_of. simpl. lia.
      * cbn [List.length]. rewrite sizes_before_cons.
        unfold fld_dtype_of. simpl. lia.
    + intros [Hoff Hsum].
      pose proof (Hoff 0%nat _ eq_refl) as H0.
      unfold fld_offset_of, sizes_before in H0. simpl in H0.
      destruct (Z.eqb_spec off t); [|lia]. cbn [negb].
      apply IH. split.
      * intros i nf Hn. specialize (Hoff (S i) nf Hn).
        rewrite sizes_before_cons in Hoff. unfold fld_dtype_of in Hoff at 1.
        simpl in Hoff. lia.
      * cbn [List.length] in Hsum. rewrite sizes_before_cons in Hsum.
        unfold fld_dtype_of in Hsum at 1. simpl in Hsum. lia.
Qed.

(** C3. For a structured descriptor [_is_packed] returns a boolean, and
    returns [True] exactly when every field, in declaration order, starts
    at the sum of the item sizes of the fields before it (the first at 0)
    and the sizes of all the fields add up to the item size of the
    descriptor. Fields at offsets 0, 4, 8 with sizes 4, 4, 4 are packed
    when the item size is 12 and are not when it is 16. *)
Theorem is_packed_spec (d : dtype) (flds : list field) :
  fields d = Some flds ->
  (exists b, _is_packed d = Ok b)
  /\ (_is_packed d = Ok true <-> packed_layout flds (itemsize d))
  /\ (map fld_offset_of flds = [0; 4; 8] ->
      map (fun nf => itemsize (fld_dtype_of nf)) flds = [4; 4; 4] ->
      (itemsize d = 12 -> _is_packed d = Ok true)
      /\ (itemsize d = 16 -> _is_packed d = Ok false)).
Proof.
  intros Hf. unfold _is_packed. rewrite Hf. split; [eauto|]. split.
  - unfold packed_layout. rewrite <- (_is_packed_loop_spec flds 0 (itemsize d)).
    split; [intros [= ->]; reflexivity | intros ->; reflexivity].
  - intros Hoff Hsz.
    destruct flds as [|[n1 [[d1 o1] t1]] [|[n2 [[d2 o2] t2]] [|[n3 [[d3 o3] t3]] [|? ?]]]];
      try discriminate.
    unfold fld_offset_of, fld_dtype_of in Hoff, Hsz. simpl in Hoff, Hsz.
    injection Hoff as -> -> ->. injection Hsz as Hs1 Hs2 Hs3.
    cbn [_is_packed_loop _unpack_field]. rewrite Hs1, Hs2, Hs3. simpl.
    split; intros ->; reflexivity.
Qed.

Lemma is_packed_spec_witness :
  _is_packed (Samples.three_ints false 12) = Ok true
  /\ _is_packed (Samples.three_ints false 16) = Ok false.
Proof.
  pose proof (is_packed_spec (Samples.three_ints false 12) _ eq_refl) as [_ [_ H12]].
  pose proof (is_packed_spec (Samples.three_ints false 16) _ eq_refl) as [_ [_ H16]].
  split.
  - apply (proj1 (H12 eq_refl eq_refl)). reflexivity.
  - apply (proj2 (H16 eq_refl eq_refl)). reflexivity.
Defined.

(** ** The structured serializer *)

Lemma scalar_type_eqb_eq (a b : scalar_type) : (a == b) = true <-> a = b.
Proof.
  split.
  - destruct a, b; simpl; try discriminate; try reflexivity.
    intros H. repeat (apply andb_prop in H as [H ?]).
    apply String.eqb_eq in H. subst.
    repeat match goal with
           | E : String.eqb _ _ = true |- _ => apply String.eqb_eq in E; subst
           | E : Bool.eqb _ _ = true |- _ => apply Bool.eqb_prop in E; subst
           end.
    reflexivity.
  - intros <-. destruct a; simpl; try reflexivity.
    now rewrite !String.eqb_refl, !Bool.eqb_reflx.
Qed.

Lemma scalar_type_eqb_neq (a b : scalar_type) : (a == b) = false <-> a <> b.
Proof.
  rewrite <- scalar_type_eqb_eq. destruct (a == b); split; congruence.
Qed.

Lemma _struct_str_eq (platform : endianness) (d : dtype) (include_align : bool) :
  _struct_str platform d include_align
  = (sub <- _struct_sub platform d include_align ;;
     if negb (type d == void) then Ok (type_identity_wrap (type d) sub) else Ok sub).
Proof. reflexivity. Qed.

Lemma _struct_dict_str_eq (platform : endianness) (d : dtype) (flds : list field)
    (flag : bool) :
  fields d = Some flds ->
  _struct_dict_str platform d flag
  = (formats <- mapM (fun nf => _construction_repr platform (fld_dtype_of nf) false true) flds ;;
     Ok (dict_form (map fst flds) formats (map fld_offset_of flds) (map fld_title_of flds)
           (itemsize d) (flag && isalignedstruct d))).
Proof.
  intros Hf. unfold _struct_dict_str, _struct_dict_str_open. rewrite Hf.
  rewrite (mapM_ext_Forall _
             (fun nf => _construction_repr platform (fld_dtype_of nf) false true)).
  2:{ apply Forall_forall. intros [n [[dt off] ti]] _. reflexivity. }
  rewrite (map_ext _ fld_offset_of) by (intros [n [[dt off] ti]]; reflexivity).
  rewrite (map_ext _ fld_title_of) by (intros [n [[dt off] ti]]; reflexivity).
  destruct (mapM _ flds) as [formats|e]; [|reflexivity].
  unfold bind, dict_form.
  destruct (existsb is_not_None (map fld_title_of flds));
    destruct (flag && isalignedstruct d);
    rewrite !append_assoc; reflexivity.
Qed.

Lemma _struct_dict_str_prefix (platform : endianness) (d : dtype) (flag : bool) (s : string) :
  _struct_dict_str platform d flag = Ok s -> starts_with "{'names':[" s = true.
Proof.
  destruct (fields d) as [flds|] eqn:Hf.
  - rewrite (_struct_dict_str_eq _ _ _ _ Hf).
    intros H. apply bind_inv_Ok in H as [formats [_ H]].
    injection H as <-. reflexivity.
  - unfold _struct_dict_str, _struct_dict_str_open. rewrite Hf. discriminate.
Qed.

Lemma _struct_list_str_prefix (platform : endianness) (d : dtype) (s : string) :
  _struct_list_str platform d = Ok s -> starts_with "[" s = true.
Proof.
  unfold _struct_list_str, _struct_list_str_open.
  destruct (fields d) as [flds|]; [|discriminate].
  intros H. apply bind_inv_Ok in H as [items [_ H]].
  injection H as <-. reflexivity.
Qed.

(** C4. For a structured descriptor, [_struct_str] renders the fields in
    dict form when alignment is to be included and the aligned-struct flag
    is set, or when the layout is not packed, and in list form otherwise,
    where packed is what [_is_packed] answers: every field starts at the sum
    of the item sizes of the fields before it and the sizes add up to the
    item size. A dict form starts with a brace and a list form with a
    bracket, so the form of what is returned tells which case it was. *)
Theorem struct_str_form_choice (platform : endianness) (d : dtype) (flds : list field)
    (include_align : bool) :
  fields d = Some flds ->
  exists packed,
    _is_packed d = Ok packed
    /\ (packed = true <-> packed_layout flds (itemsize d))
    /\ _struct_sub platform d include_align
       = (if (include_align && isalignedstruct d) || negb packed
          then _struct_dict_str platform d include_align
          else _struct_list_str platform d)
    /\ _struct_str platform d include_align
       = (sub <- _struct_sub platform d include_align ;;
          if negb (type d == void) then Ok (type_identity_wrap (type d) sub) else Ok sub)
    /\ (forall s, _struct_dict_str platform d include_align = Ok s ->
        starts_with "{" s = true /\ starts_with "[" s = false)
    /\ (forall s, _struct_list_str platform d = Ok s ->
        starts_with "[" s = true /\ starts_with "{" s = false)
    /\ (forall s, _struct_sub platform d include_align = Ok s ->
        (starts_with "{" s = true
         <-> (include_align && isalignedstruct d = true
              \/ ~ packed_layout flds (itemsize d)))
        /\ (starts_with "[" s = true
            <-> (include_align && isalignedstruct d = false
                 /\ packed_layout flds (itemsize d)))).
Proof.
  intros Hf. exists (_is_packed_loop 0 flds (itemsize d)).
  assert (Hp : _is_packed d = Ok (_is_packed_loop 0 flds (itemsize d))).
  { unfold _is_packed. now rewrite Hf. }
  assert (Hiff : _is_packed_loop 0 flds (itemsize d) = true
                 <-> packed_layout flds (itemsize d)).
  { unfold packed_layout. apply _is_packed_loop_spec. }
  assert (Hsub : _struct_sub platform d include_align
                 = (if (include_align && isalignedstruct d)
                       || negb (_is_packed_loop 0 flds (itemsize d))
                    then _struct_dict_str platform d include_align
                    else _struct_list_str platform d)).
  { unfold _struct_sub, _struct_sub_open. rewrite Hp.
    destruct (include_align && isalignedstruct d); simpl; [reflexivity|].
    destruct (_is_packed_loop 0 flds (itemsize d)); reflexivity. }
  assert (Hdict : forall s, _struct_dict_str platform d include_align = Ok s ->
                            starts_with "{" s = true /\ starts_with "[" s = false).
  { intros s Hs. apply _struct_dict_str_prefix in Hs.
    destruct s as [|c s]; [discriminate|]. cbn [starts_with] in Hs.
    apply andb_prop in Hs as [Hc _]. apply Ascii.eqb_eq in Hc as <-.
    split; reflexivity. }
  assert (Hlist : forall s, _struct_list_str platform d = Ok s ->
                            starts_with "[" s = true /\ starts_with "{" s = false).
  { intros s Hs. apply _struct_list_str_prefix in Hs.
    destruct s as [|c s]; [discriminate|]. cbn [starts_with] in Hs.
    apply andb_prop in Hs as [Hc _]. apply Ascii.eqb_eq in Hc as <-.
    split; reflexivity. }
  split; [exact Hp|]. split; [exact Hiff|]. split; [exact Hsub|].
  split; [reflexivity|]. split; [exact Hdict|]. split; [exact Hlist|].
  intros s Hs. rewrite Hsub in Hs.
  destruct (include_align && isalignedstruct d);
    destruct (_is_packed_loop 0 flds (itemsize d)) eqn:Hl; cbn [orb negb] in Hs.
  - destruct (Hdict s Hs) as [H1 H2]. rewrite H1, H2. split.
    + split; [intros _; left; reflexivity | intros _; reflexivity].
    + split; [discriminate | intros [E _]; discriminate E].
  - destruct (Hdict s Hs) as [H1 H2]. rewrite H1, H2. split.
    + split; [intros _; left; reflexivity | intros _; reflexivity].
    + split; [discriminate | intros [E _]; discriminate E].
  - destruct (Hlist s Hs) as [H1 H2]. rewrite H1, H2. split.
    + split; [discriminate|].
      intros [E | Hn]; [discriminate E|]. exfalso. apply Hn. now apply Hiff.
    + split; [|intros _; reflexivity].
      intros _. split; [reflexivity | now apply Hiff].
  - destruct (Hdict s Hs) as [H1 H2]. rewrite H1, H2.
    assert (Hn : ~ packed_layout flds (itemsize d)).
    { intros Hpl. apply Hiff in Hpl. discriminate Hpl. }
    split.
    + split; [intros _; right; exact Hn | intros _; reflexivity].
    + split; [discriminate | intros [_ Hpl]; contradiction].
Qed.

(** The three fields of 4 bytes in 16 bytes, padded at the end, are not
    packed and are rendered in dict form without any alignment request. *)
Lemma struct_str_form_choice_witness :
  ~ packed_layout [("a", (Samples.int32, 0, None)); ("b", (Samples.int32, 4, Some "t1"));
                   ("c", (Samples.int32, 8, None))] 16
  /\ _struct_sub LittleEndian (Samples.three_ints false 16) false
     = _struct_dict_str LittleEndian (Samples.three_ints false 16) false
  /\ _struct_sub LittleEndian (Samples.three_ints true 12) true
     = _struct_dict_str LittleEndian (Samples.three_ints true 12) true.
Proof.
  destruct (struct_str_form_choice LittleEndian (Samples.three_ints false 16) _ false eq_refl)
    as [packed [H1 [H2 [H3 _]]]].
  destruct (struct_str_form_choice LittleEndian (Samples.three_ints true 12) _ true eq_refl)
    as [packed' [H1' [_ [H3' _]]]].
  vm_compute in H1. injection H1 as <-.
  split; [|split].
  - intros Hp. apply H2 in Hp. discriminate Hp.
  - exact H3.
  - rewrite H3'. reflexivity.
Defined.

(** ** The entry points *)

(** C2, as the code has it. For a structured descriptor, [__repr__] wraps
    the builder output produced with include_align = False as
    [dtype(<rendered>)], with [, align=True] before the closing parenthesis
    exactly when the aligned-struct flag is set; so the fields of a packed
    descriptor are rendered in list form whether or not the flag is set,
    and those of a descriptor that is not packed in dict form. *)
Theorem struct_repr_wraps_unaligned_builder (platform : endianness) (d : dtype)
    (flds : list field) :
  fields d = Some flds ->
  __repr__ platform d
  = (r <- _construction_repr platform d false false ;;
     Ok ("dtype(" ++ r ++ (if isalignedstruct d then ", align=True" else "") ++ ")"))
  /\ (_is_packed d = Ok true ->
      _struct_sub platform d false = _struct_list_str platform d)
  /\ (_is_packed d = Ok false ->
      _struct_sub platform d false = _struct_dict_str platform d false).
Proof.
  intros Hf. split; [|split].
  - unfold __repr__, _struct_repr.
    rewrite (_construction_repr_eq platform d false false), Hf. cbn [is_not_None].
    destruct (_struct_str platform d false) as [r|e]; simpl; [|reflexivity].
    destruct (isalignedstruct d); string_norm; reflexivity.
  - intros Hp. unfold _struct_sub, _struct_sub_open. now rewrite Hp.
  - intros Hp. unfold _struct_sub, _struct_sub_open. now rewrite Hp.
Qed.

Lemma struct_repr_wraps_unaligned_builder_witness :
  __repr__ LittleEndian (Samples.one_int true)
  = (r <- _construction_repr LittleEndian (Samples.one_int true) false false ;;
     Ok ("dtype(" ++ r ++ ", align=True" ++ ")")).
Proof.
  exact (proj1 (struct_repr_wraps_unaligned_builder LittleEndian (Samples.one_int true)
                  _ eq_refl)).
Defined.

(** C2, as the specification states it, fails: the repr of the packed,
    aligned [np.dtype([('x', 'i4')], align=True)] holds the list form, where
    the builder output with include_align = True is the dict form. *)
Lemma struct_repr_not_aligned_builder :
  __repr__ LittleEndian (Samples.one_int true) = Ok "dtype([('x', '<i4')], align=True)"
  /\ spec_struct_repr LittleEndian (Samples.one_int true)
     = Ok "dtype({'names':['x'], 'formats':['<i4'], 'offsets':[0], 'itemsize':4, 'aligned':True}, align=True)"
  /\ __repr__ LittleEndian (Samples.one_int true)
     <> spec_struct_repr LittleEndian (Samples.one_int true).
Proof.
  split; [reflexivity|]. split; [reflexivity|]. discriminate.
Qed.

(** C10. For a structured descriptor whose scalar type is not [np.void],
    the wrapping [(<module>.<name>, <fields>)] is made by [_struct_str]
    itself, so the display string of [__str__] carries it as the repr
    does. *)
Theorem struct_str_type_identity (platform : endianness) (d : dtype) (flds : list field) :
  fields d = Some flds ->
  type d <> void ->
  (forall include_align,
     _struct_str platform d include_align
     = (sub <- _struct_sub platform d include_align ;;
        Ok (type_identity_wrap (type d) sub)))
  /\ __str__ platform d
     = (sub <- _struct_sub platform d true ;; Ok (type_identity_wrap (type d) sub))
  /\ __repr__ platform d
     = (sub <- _struct_sub platform d false ;;
        Ok ("dtype(" ++ type_identity_wrap (type d) sub
            ++ (if isalignedstruct d then ", align=True" else "") ++ ")")).
Proof.
  intros Hf Ht. apply scalar_type_eqb_neq in Ht.
  assert (Hs : forall ia, _struct_str platform d ia
     = (sub <- _struct_sub platform d ia ;; Ok (type_identity_wrap (type d) sub))).
  { intros ia. rewrite _struct_str_eq, Ht. reflexivity. }
  split; [exact Hs|]. split.
  - unfold __str__. rewrite Hf. simpl. apply Hs.
  - unfold __repr__, _struct_repr. rewrite Hf. simpl. rewrite Hs.
    destruct (_struct_sub platform d false) as [sub|e]; simpl; [|reflexivity].
    unfold type_identity_wrap.
    destruct (isalignedstruct d); string_norm; reflexivity.
Qed.

Lemma struct_str_type_identity_witness :
  __str__ LittleEndian (Samples.record false)
  = Ok "(numpy.record, [('x', [('a', '<i4'), (('t1', 'b'), '<i4'), ('c', '<i4')]), ('y', '<i4', (2, 3))])".
Proof.
  rewrite (proj1 (proj2 (struct_str_type_identity LittleEndian (Samples.record false) _
                           eq_refl ltac:(discriminate)))).
  reflexivity.
Defined.

(** C9. Two calls of [__repr__] on a descriptor, one after the other,
    return the same string, or both raise the same exception. *)
Theorem repr_twice_same (platform : endianness) (d : dtype) :
  repr_twice platform d
  = match __repr__ platform d with
    | Ok s => Ok (s, s)
    | Raise e => Raise e
    end.
Proof.
  unfold repr_twice. destruct (__repr__ platform d) as [s|e]; reflexivity.
Qed.

(** ** Numeric descriptors *)


Lemma numeric_scalar_repr (platform : endianness) (d : dtype) (include_align short : bool)
    (m n : string) (f : bool) :
  fields d = None -> subdtype d = None -> type d = scalar_class m n true f ->
  _construction_repr platform d include_align short
  = if short || negb (String.eqb (byteorder d) "=" || String.eqb (byteorder d) "|")
    then Ok ("'" ++ _byte_order_str platform d ++ String (kind d) "" ++ fmt_d (itemsize d) ++ "'")
    else match kindstrs (kind d) with
         | Some kindstr => Ok ("'" ++ kindstr ++ fmt_d (8 * itemsize d) ++ "'")
         | None => Raise (unknown_kind_error d)
         end.
Proof.
  intros Hf Hs Ht. rewrite _construction_repr_eq, Hf, Hs. cbn [is_not_None].
  unfold _scalar_repr, issubdtype_number. rewrite Ht. cbn [scalar_type_eqb issubclass_number].
  destruct (short || negb (String.eqb (byteorder d) "=" || String.eqb (byteorder d) "|")).
  - unfold quoted. string_norm. reflexivity.
  - destruct (kindstrs (kind d)); [|reflexivity].
    unfold quoted. string_norm. reflexivity.
Qed.



(** ** The dict form *)

(** C8, as the code has it. For a structured descriptor,
    [_struct_dict_str] emits the names, the formats (the short construction
    repr of each field's type), and the offsets of the fields as sequences
    in declaration order that correspond index for index; a titles
    sequence, parallel to them, exactly when some field has a title that is
    not [None], the empty string included; the item size always; and ['aligned':True] exactly
    when the aligned-struct flag is set and the caller asked for it. It
    raises only what the rendering of a field's type raises. *)
Theorem struct_dict_str_spec (platform : endianness) (d : dtype) (flds : list field)
    (includealignedflag : bool) :
  fields d = Some flds ->
  (forall formats,
     Forall2 (fun nf fmt => _construction_repr platform (fld_dtype_of nf) false true = Ok fmt)
       flds formats ->
     _struct_dict_str platform d includealignedflag
     = Ok (dict_form (map fst flds) formats (map fld_offset_of flds) (map fld_title_of flds)
             (itemsize d) (includealignedflag && isalignedstruct d)))
  /\ (forall s, _struct_dict_str platform d includealignedflag = Ok s ->
      exists formats,
        Forall2 (fun nf fmt => _construction_repr platform (fld_dtype_of nf) false true = Ok fmt)
          flds formats
        /\ s = dict_form (map fst flds) formats (map fld_offset_of flds)
                 (map fld_title_of flds) (itemsize d)
                 (includealignedflag && isalignedstruct d))
  /\ (forall e, _struct_dict_str platform d includealignedflag = Raise e ->
      exists nf, In nf flds
                 /\ _construction_repr platform (fld_dtype_of nf) false true = Raise e)
  /\ (forall i nf, nth_error flds i = Some nf ->
      nth_error (map fst flds) i = Some (fst nf)
      /\ nth_error (map fld_offset_of flds) i = Some (fld_offset_of nf)
      /\ nth_error (map fld_title_of flds) i = Some (fld_title_of nf))
  /\ (existsb is_not_None (map fld_title_of flds) = true
      <-> exists nf, In nf flds /\ fld_title_of nf <> None).
Proof.
  intros Hf. rewrite (_struct_dict_str_eq _ _ _ _ Hf).
  split; [|split; [|split; [|split]]].
  - intros formats H. apply mapM_Forall2 in H. rewrite H. reflexivity.
  - intros s H. apply bind_inv_Ok in H as [formats [Hm [= <-]]].
    exists formats. split; [now apply mapM_Forall2 | reflexivity].
  - intros e H. apply bind_inv_Raise in H as [H | [formats [_ H]]]; [|discriminate].
    now apply mapM_Raise in H.
  - intros i nf Hn. repeat split; now apply map_nth_error.
  - rewrite existsb_exists. split.
    + intros [t [Hin Ht]]. apply in_map_iff in Hin as [nf [<- Hin]].
      exists nf. split; [exact Hin|]. destruct (fld_title_of nf); [discriminate | discriminate].
    + intros [nf [Hin Ht]]. exists (fld_title_of nf). split.
      * now apply in_map.
      * destruct (fld_title_of nf); [reflexivity | contradiction].
Qed.

Lemma struct_dict_str_spec_witness :
  _struct_dict_str LittleEndian (Samples.three_ints true 16) true
  = Ok "{'names':['a','b','c'], 'formats':['<i4','<i4','<i4'], 'offsets':[0,4,8], 'titles':[None,'t1',None], 'itemsize':16, 'aligned':True}".
Proof.
  rewrite (proj1 (struct_dict_str_spec LittleEndian (Samples.three_ints true 16) _ true eq_refl)
             ["'<i4'"; "'<i4'"; "'<i4'"]).
  - reflexivity.
  - repeat constructor.
Defined.

(** C8, as the specification states it, fails: a field whose title is the
    empty string has no non-empty title, and the dict form still emits the
    titles sequence, because the code tests [title is not None]. *)
Lemma struct_dict_str_empty_title :
  existsb has_nonempty_title
    [("a", (Samples.int32, 0, Some ""))] = false
  /\ fields MoreSamples.empty_title = Some [("a", (Samples.int32, 0, Some ""))]
  /\ _struct_dict_str LittleEndian MoreSamples.empty_title false
     = Ok "{'names':['a'], 'formats':['<i4'], 'offsets':[0], 'titles':[''], 'itemsize':8}"
  /\ __repr__ LittleEndian MoreSamples.empty_title
     = Ok "dtype({'names':['a'], 'formats':['<i4'], 'offsets':[0], 'titles':[''], 'itemsize':8})".
Proof. repeat split. Qed.

(** ** Errors of the builder *)

Lemma dtype_nested_ind2 (P : dtype -> Prop) :
  (forall d,
      (forall flds, fields d = Some flds ->
         Forall (fun nf => P (fld_dtype_of nf)
                           /\ forall base shape,
                               subdtype (fld_dtype_of nf) = Some (base, shape) -> P base)
           flds) ->
      (forall base shape, subdtype d = Some (base, shape) -> P base) ->
      P d) ->
  forall d, P d.
Proof.
  intros step d.
  enough (H : P d /\ forall base shape, subdtype d = Some (base, shape) -> P base)
    by exact (proj1 H).
  induction d as [d IHf IHs] using dtype_nested_ind.
  assert (Hb : forall base shape, subdtype d = Some (base, shape) -> P base).
  { intros base shape E. exact (proj1 (IHs base shape E)). }
  split; [|exact Hb].
  apply step; [|exact Hb].
  intros flds E. exact (IHf flds E).
Qed.

Lemma all_recognized_eq (d : dtype) :
  all_recognized d
  = negb (unrecognized d)
    && match fields d with
       | Some l => forallb (fun nf => all_recognized (fld_dtype_of nf)) l
       | None => true
       end
    && match subdtype d with
       | Some (base, _) => all_recognized base
       | None => true
       end.
Proof. destruct d; reflexivity. Qed.

Lemma is_leaf_true (d : dtype) :
  is_leaf d = true <-> fields d = None /\ subdtype d = None.
Proof.
  unfold is_leaf. destruct (fields d), (subdtype d); simpl; split;
    try discriminate; try tauto; intros [? ?]; discriminate.
Qed.

Lemma long_numeric_unknown_kind_short (d : dtype) :
  long_numeric_unknown_kind d true = false.
Proof.
  unfold long_numeric_unknown_kind. cbn [orb negb].
  now rewrite andb_false_r.
Qed.

(** What [_construction_repr] does on a scalar descriptor. *)
Lemma leaf_repr_cases (platform : endianness) (d : dtype) (include_align short : bool) :
  is_leaf d = true ->
  (long_numeric_unknown_kind d short = true
   /\ _construction_repr platform d include_align short = Raise (unknown_kind_error d))
  \/ (unrecognized d = true /\ long_numeric_unknown_kind d short = false
      /\ _construction_repr platform d include_align short = Raise unrecognized_error)
  \/ (unrecognized d = false /\ long_numeric_unknown_kind d short = false
      /\ exists s, _construction_repr platform d include_align short = Ok s).
Proof.
  intros Hl. pose proof Hl as Hl'. apply is_leaf_true in Hl' as [Hf Hs].
  rewrite _construction_repr_eq, Hf, Hs. cbn [is_not_None].
  unfold long_numeric_unknown_kind, unrecognized, _scalar_repr, issubdtype_number.
  rewrite Hl.
  destruct (type d) as [| | | | | | |m n u f]; cbn;
    try solve [right; right; repeat split;
               repeat match goal with |- context [if ?c then _ else _] => destruct c end;
               eauto].
  destruct u; cbn.
  - destruct (short || negb (String.eqb (byteorder d) "=" || String.eqb (byteorder d) "|"));
      cbn; [right; right; eauto|].
    destruct (kindstrs (kind d)); cbn; [right; right; eauto | left; auto].
  - destruct (isbuiltin d =? 2); cbn; [right; right; eauto | right; left; auto].
Qed.

Lemma _is_packed_structured (d : dtype) (flds : list field) :
  fields d = Some flds -> _is_packed d = Ok (_is_packed_loop 0 flds (itemsize d)).
Proof. intros Hf. unfold _is_packed. now rewrite Hf. Qed.

(** What one item of the list form renders. *)
Lemma _struct_list_item_eq (platform : endianness) (nf : field) :
  _struct_list_item_open (_construction_repr platform) nf
  = match subdtype (fld_dtype_of nf) with
    | Some (base, shape) =>
        r <- _construction_repr platform base false true ;;
        Ok ("("
            ++ match fld_title_of nf with
               | Some t => "(" ++ repr t ++ ", " ++ repr (fst nf) ++ "), "
               | None => repr (fst nf) ++ ", "
               end
            ++ r ++ ", " ++ tuple_str shape ++ ")")
    | None =>
        r <- _construction_repr platform (fld_dtype_of nf) false true ;;
        Ok ("("
            ++ match fld_title_of nf with
               | Some t => "(" ++ repr t ++ ", " ++ repr (fst nf) ++ "), "
               | None => repr (fst nf) ++ ", "
               end
            ++ r ++ ")")
    end.
Proof.
  destruct nf as [n [[dt off] ti]].
  unfold _struct_list_item_open, fld_dtype_of, fld_title_of, _unpack_field.
  cbn [fst snd].
  destruct (subdtype dt) as [[base shape]|];
    destruct (_construction_repr platform _ false true) as [r|e]; try reflexivity;
    destruct ti as [t|]; string_norm; reflexivity.
Qed.

(** The descriptor that the list form renders for a field: the base of a
    subarray field, the type of any other field. *)
Lemma _struct_list_item_inv (platform : endianness) (nf : field) (r : res string) :
  _struct_list_item_open (_construction_repr platform) nf = r ->
  exists d', (d' = fld_dtype_of nf
              \/ exists shape, subdtype (fld_dtype_of nf) = Some (d', shape))
             /\ (forall e, r = Raise e ->
                 _construction_repr platform d' false true = Raise e)
             /\ ((exists s, _construction_repr platform d' false true = Ok s) ->
                 exists s, r = Ok s).
Proof.
  rewrite _struct_list_item_eq. intros <-.
  destruct (subdtype (fld_dtype_of nf)) as [[base shape]|] eqn:E.
  - exists base. split; [right; eauto|].
    destruct (_construction_repr platform base false true) as [s|e']; cbn [bind]; split;
      try discriminate; eauto; intros [s H]; discriminate.
  - exists (fld_dtype_of nf). split; [left; reflexivity|].
    destruct (_construction_repr platform (fld_dtype_of nf) false true) as [s|e'];
      cbn [bind]; split; try discriminate; eauto; intros [s H]; discriminate.
Qed.

Lemma repr_total (platform : endianness) : forall d,
  all_recognized d = true ->
  forall include_align short,
    long_numeric_unknown_kind d short = false ->
    exists s, _construction_repr platform d include_align short = Ok s.
Proof.
  induction d as [d IHf IHs] using dtype_nested_ind2.
  intros Hrec include_align short Hlong.
  rewrite all_recognized_eq in Hrec.
  apply andb_prop in Hrec as [Hrec Hbase]. apply andb_prop in Hrec as [Hself Hflds].
  rewrite _construction_repr_eq.
  destruct (fields d) as [flds|] eqn:Hf; cbn [is_not_None].
  - specialize (IHf flds eq_refl). rewrite forallb_forall in Hflds.
    rewrite Forall_forall in IHf.
    assert (Hdict : forall flag, exists s, _struct_dict_str platform d flag = Ok s).
    { intros flag. rewrite (_struct_dict_str_eq _ _ _ _ Hf).
      destruct (mapM_total
                  (fun nf => _construction_repr platform (fld_dtype_of nf) false true) flds)
        as [formats Hm].
      - apply Forall_forall. intros nf Hin.
        apply (proj1 (IHf nf Hin)); [now apply Hflds|].
        apply long_numeric_unknown_kind_short.
      - rewrite Hm. cbn [bind]. eauto. }
    assert (Hlist : exists s, _struct_list_str platform d = Ok s).
    { unfold _struct_list_str, _struct_list_str_open. rewrite Hf.
      destruct (mapM_total (_struct_list_item_open (_construction_repr platform)) flds)
        as [items Hm].
      - apply Forall_forall. intros nf Hin.
        destruct (_struct_list_item_inv platform nf _ eq_refl) as [d' [Hd' [_ Hok]]].
        apply Hok. destruct Hd' as [-> | [shape Hsub]].
        + apply (proj1 (IHf nf Hin)); [now apply Hflds|].
          apply long_numeric_unknown_kind_short.
        + apply (proj2 (IHf nf Hin) d' shape Hsub).
          * pose proof (Hflds nf Hin) as Hr. rewrite all_recognized_eq, Hsub in Hr.
            apply andb_prop in Hr as [_ Hr]. exact Hr.
          * apply long_numeric_unknown_kind_short.
      - rewrite Hm. cbn [bind]. eauto. }
    assert (Hsub : exists s, _struct_sub platform d include_align = Ok s).
    { unfold _struct_sub, _struct_sub_open. rewrite (_is_packed_structured _ _ Hf).
      cbn [bind].
      destruct (negb (include_align && isalignedstruct d)); [|apply Hdict].
      destruct (_is_packed_loop 0 flds (itemsize d)); [apply Hlist | apply Hdict]. }
    destruct Hsub as [sub Hsub]. rewrite _struct_str_eq, Hsub. cbn [bind].
    destruct (negb (type d == void)); eauto.
  - destruct (subdtype d) as [[base shape]|] eqn:Hs; cbn [is_not_None].
    + unfold _subarray_str, _subarray_str_open. rewrite Hs.
      destruct (IHs base shape eq_refl Hbase false true
                  (long_numeric_unknown_kind_short base)) as [r Hr].
      rewrite Hr. cbn [bind]. eauto.
    + assert (Hl : is_leaf d = true) by (apply is_leaf_true; auto).
      destruct (leaf_repr_cases platform d include_align short Hl)
        as [[Ha _] | [[Hb _] | [_ [_ Hok]]]].
      * congruence.
      * rewrite Hb in Hself. discriminate.
      * rewrite _construction_repr_eq, Hf, Hs in Hok. exact Hok.
Qed.

Lemma repr_error_kind (platform : endianness) : forall d include_align short e,
  _construction_repr platform d include_align short = Raise e ->
  e = unrecognized_error
  \/ (e = unknown_kind_error d /\ long_numeric_unknown_kind d short = true).
Proof.
  induction d as [d IHf IHs] using dtype_nested_ind2.
  intros include_align short e.
  assert (Hnested : forall d' e',
            (forall ia sh e0, _construction_repr platform d' ia sh = Raise e0 ->
               e0 = unrecognized_error
               \/ (e0 = unknown_kind_error d' /\ long_numeric_unknown_kind d' sh = true)) ->
            _construction_repr platform d' false true = Raise e' ->
            e' = unrecognized_error).
  { intros d' e' IH H. destruct (IH _ _ _ H) as [-> | [_ Hl]]; [reflexivity|].
    rewrite long_numeric_unknown_kind_short in Hl. discriminate. }
  rewrite _construction_repr_eq.
  destruct (fields d) as [flds|] eqn:Hf; cbn [is_not_None].
  - specialize (IHf flds eq_refl). rewrite Forall_forall in IHf.
    intros H. left. rewrite _struct_str_eq in H.
    apply bind_inv_Raise in H as [H | [sub [_ H]]];
      [|destruct (negb (type d == void)); discriminate].
    assert (Hdict : forall flag, _struct_dict_str platform d flag = Raise e ->
                                 e = unrecognized_error).
    { intros flag Hd. rewrite (_struct_dict_str_eq _ _ _ _ Hf) in Hd.
      apply bind_inv_Raise in Hd as [Hd | [formats [_ Hd]]]; [|discriminate].
      apply mapM_Raise in Hd as [nf [Hin Hd]].
      exact (Hnested _ _ (proj1 (IHf nf Hin)) Hd). }
    assert (Hlist : _struct_list_str platform d = Raise e -> e = unrecognized_error).
    { unfold _struct_list_str, _struct_list_str_open. rewrite Hf. intros Hl.
      apply bind_inv_Raise in Hl as [Hl | [items [_ Hl]]]; [|discriminate].
      apply mapM_Raise in Hl as [nf [Hin Hl]].
      destruct (_struct_list_item_inv platform nf _ eq_refl) as [d' [Hd' [Herr _]]].
      specialize (Herr e Hl). destruct Hd' as [-> | [shape Hsub]].
      - exact (Hnested _ _ (proj1 (IHf nf Hin)) Herr).
      - exact (Hnested _ _ (proj2 (IHf nf Hin) d' shape Hsub) Herr). }
    unfold _struct_sub, _struct_sub_open in H.
    rewrite (_is_packed_structured _ _ Hf) in H. cbn [bind] in H.
    destruct (negb (include_align && isalignedstruct d)); [|now apply (Hdict include_align)].
    destruct (_is_packed_loop 0 flds (itemsize d));
      [now apply Hlist | now apply (Hdict include_align)].
  - destruct (subdtype d) as [[base shape]|] eqn:Hs; cbn [is_not_None].
    + unfold _subarray_str, _subarray_str_open. rewrite Hs. intros H. left.
      apply bind_inv_Raise in H as [H | [r [_ H]]]; [|discriminate].
      exact (Hnested _ _ (IHs base shape eq_refl) H).
    + intros H.
      assert (Hl : is_leaf d = true) by (apply is_leaf_true; auto).
      destruct (leaf_repr_cases platform d include_align short Hl)
        as [[Ha Hr] | [[_ [_ Hr]] | [_ [_ [s Hr]]]]];
        rewrite _construction_repr_eq, Hf, Hs in Hr; cbn [is_not_None] in Hr;
        rewrite Hr in H.
      * injection H as <-. right. auto.
      * injection H as <-. left. reflexivity.
      * discriminate.
Qed.








(** ** What the canonical repr records *)











Lemma last_char_app (x y : string) (c : ascii) :
  last_char y = Some c -> last_char (x ++ y) = Some c.
Proof.
  intros H. induction x as [|a x IH]; [exact H|].
  cbn [append last_char]. destruct (x ++ y)%string; [discriminate IH | exact IH].
Qed.

Lemma last_char_cons (a : ascii) (y : string) (c : ascii) :
  last_char y = Some c -> last_char (String a y) = Some c.
Proof. exact (last_char_app (String a "") y c). Qed.

Ltac last_char_tac :=
  repeat first [reflexivity | apply last_char_app | apply last_char_cons].





(** ** The unit of a datetime *)

Lemma rfind_from_absent (c : ascii) (s : string) : forall i found,
  contains c s = false -> rfind_from i c s found = found.
Proof.
  induction s as [|a s IH]; intros i found H; [reflexivity|].
  cbn [contains] in H. apply orb_false_elim in H as [Ha Hs].
  cbn [rfind_from]. rewrite Ha. now apply IH.
Qed.

Lemma rfind_from_present (c : ascii) (s : string) : forall i found,
  contains c s = true ->
  exists pre rest,
    s = (pre ++ String c rest)%string
    /\ contains c rest = false
    /\ rfind_from i c s found = i + Z.of_nat (String.length pre).
Proof.
  induction s as [|a s IH]; intros i found H; [discriminate|].
  cbn [rfind_from]. destruct (contains c s) eqn:Hs.
  - destruct (IH (i + 1) (if Ascii.eqb a c then i else found) eq_refl)
      as [pre [rest [-> [Hrest Hr]]]].
    exists (String a pre), rest. repeat split; [exact Hrest|].
    rewrite Hr. cbn [String.length]. lia.
  - cbn [contains] in H. rewrite Hs, orb_false_r in H.
    rewrite H. apply Ascii.eqb_eq in H as ->.
    exists EmptyString, s. repeat split; [exact Hs|].
    rewrite (rfind_from_absent c s _ _ Hs). cbn [String.length]. lia.
Qed.

Lemma drop_app_length (pre s : string) : drop (String.length pre) (pre ++ s) = s.
Proof. induction pre as [|a pre IH]; [destruct s; reflexivity | exact IH]. Qed.

Lemma drop_to_last (s : string) :
  drop (String.length s - 1) s
  = match last_char s with
    | Some c => String c ""
    | None => ""
    end.
Proof.
  induction s as [|a s IH]; [reflexivity|].
  cbn [String.length last_char]. destruct s as [|b s]; [reflexivity|].
  replace (S (String.length (String b s)) - 1)%nat with (S (String.length (String b s) - 1))
    by (cbn [String.length]; lia).
  exact IH.
Qed.

(** X1. When [dtype.name] holds a bracket, [_datetime_metadata_str] is the
    part of the name from its last bracket on: the name is some prefix
    followed by the result, and the result holds no other bracket; a
    datetime is then rendered as ['<order>M8<unit>'] and a timedelta as
    ['<order>m8<unit>']. *)
Theorem datetime_metadata_from_last_bracket (platform : endianness) (d : dtype) :
  contains "[" (name d) = true ->
  exists pre unit,
    name d = (pre ++ String "[" unit)%string
    /\ contains "[" unit = false
    /\ _datetime_metadata_str d = String "[" unit
    /\ (is_leaf d = true -> type d = datetime64 ->
        forall include_align short,
          _construction_repr platform d include_align short
          = Ok ("'" ++ _byte_order_str platform d ++ "M8[" ++ unit ++ "'"))
    /\ (is_leaf d = true -> type d = timedelta64 ->
        forall include_align short,
          _construction_repr platform d include_align short
          = Ok ("'" ++ _byte_order_str platform d ++ "m8[" ++ unit ++ "'")).
Proof.
  intros H.
  destruct (rfind_from_present "[" (name d) 0 (-1) H) as [pre [unit [Hn [Hu Hr]]]].
  assert (Hm : _datetime_metadata_str d = String "[" unit).
  { unfold _datetime_metadata_str, rfind, slice_from. rewrite Hr.
    destruct (0 + Z.of_nat (String.length pre) <? 0) eqn:E; [lia|].
    rewrite Z.add_0_l, Nat2Z.id, Hn. apply drop_app_length. }
  exists pre, unit. split; [exact Hn|]. split; [exact Hu|]. split; [exact Hm|].
  split; intros Hl Ht include_align short; apply is_leaf_true in Hl as [Hf Hs];
    rewrite _construction_repr_eq, Hf, Hs; cbn [is_not_None];
    unfold _scalar_repr; rewrite Ht, Hm; cbn [scalar_type_eqb];
    unfold quoted; string_norm; reflexivity.
Qed.

Lemma datetime_metadata_from_last_bracket_witness :
  _datetime_metadata_str MoreSamples.datetime_ns = "[ns]"
  /\ _construction_repr LittleEndian MoreSamples.datetime_ns true false = Ok "'<M8[ns]'".
Proof.
  destruct (datetime_metadata_from_last_bracket LittleEndian MoreSamples.datetime_ns eq_refl)
    as [pre [unit [Hn [Hu [Hm [Hd _]]]]]].
  split; [reflexivity|].
  vm_compute in Hm. injection Hm as <-.
  rewrite (Hd eq_refl eq_refl true false). reflexivity.
Defined.

(** X2. When [dtype.name] holds no bracket, [rfind] answers -1 and
    [_datetime_metadata_str] is the last character of the name, not the
    empty string (and empty only for an empty name). *)
Theorem datetime_metadata_without_bracket (d : dtype) :
  contains "[" (name d) = false ->
  _datetime_metadata_str d
  = match last_char (name d) with
    | Some c => String c ""
    | None => ""
    end.
Proof.
  intros H. unfold _datetime_metadata_str, rfind, slice_from.
  rewrite (rfind_from_absent _ _ _ _ H). cbn [Z.ltb Z.compare].
  replace (Z.to_nat (Z.max 0 (-1 + Z.of_nat (String.length (name d)))))
    with (String.length (name d) - 1)%nat by lia.
  apply drop_to_last.
Qed.

Lemma datetime_metadata_without_bracket_witness :
  _datetime_metadata_str Samples.datetime_generic = "4".
Proof.
  rewrite (datetime_metadata_without_bracket Samples.datetime_generic eq_refl).
  reflexivity.
Defined.

(** ** More on the byte order *)

(** X3. [_byte_order_str] never answers one of the markers ['='], ['s'],
    ['|'] that it resolves, and a byte order it has answered is answered
    unchanged when given back to it. *)
Theorem byte_order_str_normalizes (platform : endianness) (d : dtype) :
  _byte_order_str platform d <> "="
  /\ _byte_order_str platform d <> "s"
  /\ _byte_order_str platform d <> "|"
  /\ (forall d', byteorder d' = _byte_order_str platform d ->
                 _byte_order_str platform d' = _byte_order_str platform d).
Proof.
  assert (Hn : _byte_order_str platform d <> "="
               /\ _byte_order_str platform d <> "s"
               /\ _byte_order_str platform d <> "|").
  { unfold _byte_order_str.
    destruct (String.eqb_spec (byteorder d) "=");
      [destruct platform; repeat split; discriminate|].
    destruct (String.eqb_spec (byteorder d) "s");
      [destruct platform; repeat split; discriminate|].
    destruct (String.eqb_spec (byteorder d) "|"); [repeat split; discriminate|].
    repeat split; assumption. }
  destruct Hn as [H1 [H2 H3]]. repeat split; try assumption.
  intros d' Hd'. unfold _byte_order_str at 1. rewrite Hd'.
  apply String.eqb_neq in H1, H2, H3. now rewrite H1, H2, H3.
Qed.

Lemma byte_order_str_normalizes_witness :
  _byte_order_str LittleEndian MoreSamples.float64_little
  = _byte_order_str LittleEndian Samples.float64.
Proof.
  apply (proj2 (proj2 (proj2 (byte_order_str_normalizes LittleEndian Samples.float64)))).
  reflexivity.
Defined.

(** ** The entry points and the builder *)

Lemma repr_raise_classified (platform : endianness) (d : dtype)
    (include_align short : bool) (e : exn) :
  _construction_repr platform d include_align short = Raise e ->
  (e = unrecognized_error /\ all_recognized d = false)
  \/ (e = unknown_kind_error d /\ long_numeric_unknown_kind d short = true).
Proof.
  intros H.
  destruct (repr_error_kind platform _ _ _ _ H) as [-> | [-> Hl]]; [|right; auto].
  left. split; [reflexivity|].
  destruct (all_recognized d) eqn:Hrec; [|reflexivity].
  destruct (long_numeric_unknown_kind d short) eqn:Hl.
  - assert (Hleaf : is_leaf d = true).
    { unfold long_numeric_unknown_kind in Hl. destruct (is_leaf d); [reflexivity|].
      discriminate. }
    destruct (leaf_repr_cases platform d include_align short Hleaf)
      as [[_ Hr] | [[_ [Hn _]] | [_ [Hn _]]]]; [|congruence|congruence].
    rewrite Hr in H. discriminate.
  - destruct (repr_total platform d Hrec include_align short Hl) as [s Hs]. congruence.
Qed.

Lemma str_as_builder (platform : endianness) (d : dtype) :
  is_leaf d = false ->
  forall include_align short,
    _construction_repr platform d include_align short
    = if is_not_None (fields d) then _struct_str platform d include_align
      else __str__ platform d.
Proof.
  intros Hl include_align short. rewrite _construction_repr_eq. unfold __str__.
  unfold is_leaf in Hl.
  destruct (fields d), (subdtype d); cbn [is_not_None] in *; try reflexivity.
  discriminate.
Qed.

Lemma struct_str_unaligned (platform : endianness) (d : dtype) :
  is_not_None (fields d) && isalignedstruct d = false ->
  _struct_str platform d true = _struct_str platform d false.
Proof.
  intros H. destruct (fields d) as [flds|] eqn:Hf.
  - cbn [is_not_None andb] in H. rewrite !_struct_str_eq. f_equal.
    unfold _struct_sub, _struct_sub_open.
    pose proof (_struct_dict_str_eq platform d flds true Hf) as Ht.
    pose proof (_struct_dict_str_eq platform d flds false Hf) as Hfa.
    unfold _struct_dict_str in Ht, Hfa. rewrite Ht, Hfa, H. reflexivity.
  - rewrite !_struct_str_eq. unfold _struct_sub, _struct_sub_open, _is_packed,
      _struct_dict_str_open.
    rewrite Hf. destruct (isalignedstruct d); reflexivity.
Qed.

(** X4. [__str__] and [__repr__] never raise a [TypeError], although the
    helpers that iterate [dtype.names] do on a descriptor without fields:
    whatever they raise is one of the two [RuntimeError]s of the builder.
    [__str__] raises only for an unrecognized descriptor nested in a
    structured or subarray one, never on a scalar and never the
    unknown-kind error; [__repr__] raises the unknown-kind error only on a
    scalar. *)
Theorem entry_point_errors (platform : endianness) (d : dtype) (e : exn) :
  (_is_packed d = Raise e -> fields d = None /\ e = not_iterable)
  /\ (__str__ platform d = Raise e ->
      e = unrecognized_error /\ is_leaf d = false /\ all_recognized d = false)
  /\ (__repr__ platform d = Raise e ->
      (e = unrecognized_error /\ all_recognized d = false)
      \/ (e = unknown_kind_error d /\ long_numeric_unknown_kind d false = true)).
Proof.
  split; [|split].
  - unfold _is_packed. destruct (fields d); [discriminate|]. intros [= <-]. auto.
  - intros H. destruct (is_leaf d) eqn:Hl.
    + unfold __str__ in H. apply is_leaf_true in Hl as [Hf Hs]. rewrite Hf, Hs in H.
      cbn [is_not_None] in H. destruct (_ || _); discriminate.
    + assert (Hb : _construction_repr platform d true true = Raise e).
      { rewrite (str_as_builder platform d Hl).
        destruct (is_not_None (fields d)) eqn:Hf; [|exact H].
        unfold __str__ in H. rewrite Hf in H. exact H. }
      destruct (repr_raise_classified _ _ _ _ _ Hb) as [[-> Hrec] | [_ Hlong]]; [auto|].
      rewrite long_numeric_unknown_kind_short in Hlong. discriminate.
  - intros H. unfold __repr__, _struct_repr in H.
    destruct (fields d) as [flds|] eqn:Hf; cbn [is_not_None] in H.
    + apply bind_inv_Raise in H as [H | [r [_ H]]];
        [|destruct (isalignedstruct d); discriminate].
      assert (Hb : _construction_repr platform d false false = Raise e).
      { rewrite _construction_repr_eq, Hf. exact H. }
      exact (repr_raise_classified _ _ _ _ _ Hb).
    + apply bind_inv_Raise in H as [H | [r [_ H]]]; [|discriminate].
      exact (repr_raise_classified _ _ _ _ _ H).
Qed.

Lemma entry_point_errors_witness :
  is_leaf MoreSamples.strangers = false
  /\ all_recognized MoreSamples.strangers = false
  /\ __repr__ LittleEndian Samples.odd_number
     = Raise (unknown_kind_error Samples.odd_number).
Proof.
  destruct (proj1 (proj2 (entry_point_errors LittleEndian MoreSamples.strangers
                            unrecognized_error)) eq_refl) as [_ [Hl Hr]].
  split; [exact Hl|]. split; [exact Hr|].
  destruct (proj2 (proj2 (entry_point_errors LittleEndian Samples.odd_number
                            (unknown_kind_error Samples.odd_number))) eq_refl)
    as [[He _] | [_ _]]; [discriminate He | reflexivity].
Defined.

(** X5. For a subarray descriptor, and for a structured descriptor whose
    aligned-struct flag is not set, the repr is the display string wrapped
    in [dtype(...)]; both raise together. *)
Theorem repr_wraps_str (platform : endianness) (d : dtype) :
  is_leaf d = false ->
  is_not_None (fields d) && isalignedstruct d = false ->
  __repr__ platform d = (s <- __str__ platform d ;; Ok ("dtype(" ++ s ++ ")")).
Proof.
  intros Hl Hal. unfold __repr__, _struct_repr.
  destruct (is_not_None (fields d)) eqn:Hf.
  - unfold __str__. rewrite Hf, (struct_str_unaligned platform d) by (now rewrite Hf).
    cbn [andb] in Hal. rewrite Hal.
    destruct (_struct_str platform d false) as [r|e0]; [|reflexivity].
    string_norm. reflexivity.
  - rewrite (str_as_builder platform d Hl), Hf. reflexivity.
Qed.

Lemma repr_wraps_str_witness :
  __repr__ LittleEndian (Samples.record true)
  = (s <- __str__ LittleEndian (Samples.record true) ;; Ok ("dtype(" ++ s ++ ")"))
  /\ __repr__ LittleEndian Samples.int32_2x3
     = (s <- __str__ LittleEndian Samples.int32_2x3 ;; Ok ("dtype(" ++ s ++ ")")).
Proof.
  split.
  - apply (repr_wraps_str LittleEndian (Samples.record true)); reflexivity.
  - apply (repr_wraps_str LittleEndian Samples.int32_2x3); reflexivity.
Defined.

(** X6. The [short] argument of [_construction_repr] is looked at for a
    scalar descriptor only, and the [include_align] argument for a
    structured descriptor whose aligned-struct flag is set only. *)
Theorem builder_arguments_matter (platform : endianness) (d : dtype) :
  (is_leaf d = false ->
   forall include_align,
     _construction_repr platform d include_align true
     = _construction_repr platform d include_align false)
  /\ (is_not_None (fields d) && isalignedstruct d = false ->
      forall short,
        _construction_repr platform d true short
        = _construction_repr platform d false short).
Proof.
  split.
  - intros Hl include_align. now rewrite !(str_as_builder platform d Hl).
  - intros Hal short. rewrite !_construction_repr_eq.
    destruct (is_not_None (fields d)) eqn:Hf; [|reflexivity].
    apply struct_str_unaligned. now rewrite Hf.
Qed.

Lemma builder_arguments_matter_witness :
  _construction_repr LittleEndian (Samples.three_ints false 16) true true
  = _construction_repr LittleEndian (Samples.three_ints false 16) false false.
Proof.
  rewrite (proj1 (builder_arguments_matter LittleEndian (Samples.three_ints false 16))
             eq_refl true).
  apply (proj2 (builder_arguments_matter LittleEndian (Samples.three_ints false 16))).
  reflexivity.
Defined.

(** X7. Whatever [__repr__] returns starts with [dtype(] and ends with a
    closing parenthesis. *)
Theorem repr_is_a_dtype_call (platform : endianness) (d : dtype) (s : string) :
  __repr__ platform d = Ok s ->
  starts_with "dtype(" s = true /\ last_char s = Some ")"%char.
Proof.
  unfold __repr__, _struct_repr. intros H.
  destruct (is_not_None (fields d)).
  - apply bind_inv_Ok in H as [r [_ H]].
    destruct (isalignedstruct d); injection H as <-;
      (split; [reflexivity | last_char_tac]).
  - apply bind_inv_Ok in H as [r [_ H]]. injection H as <-.
    split; [reflexivity | last_char_tac].
Qed.

Lemma repr_is_a_dtype_call_witness :
  starts_with "dtype(" "dtype([('x', '<i4')], align=True)" = true
  /\ last_char "dtype([('x', '<i4')], align=True)" = Some ")"%char.
Proof.
  apply (repr_is_a_dtype_call LittleEndian (Samples.one_int true)). reflexivity.
Defined.

(** X8. A subarray descriptor over a numeric scalar is rendered as
    [('<order><kind><itemsize>', <shape>)] by the builder whatever its two
    flags are, by [__str__], and inside [dtype(...)] by [__repr__]: the base
    takes the short spelling also when its byte order is native, and so
    never raises the unknown-kind error. *)
Theorem subarray_of_numeric (platform : endianness) (d base : dtype) (shape : list Z)
    (m n : string) (f : bool) :
  fields d = None -> subdtype d = Some (base, shape) ->
  fields base = None -> subdtype base = None ->
  type base = scalar_class m n true f ->
  (forall include_align short,
     _construction_repr platform d include_align short
     = Ok ("('" ++ _byte_order_str platform base ++ String (kind base) ""
           ++ fmt_d (itemsize base) ++ "', " ++ tuple_str shape ++ ")"))
  /\ __str__ platform d
     = Ok ("('" ++ _byte_order_str platform base ++ String (kind base) ""
           ++ fmt_d (itemsize base) ++ "', " ++ tuple_str shape ++ ")")
  /\ __repr__ platform d
     = Ok ("dtype(('" ++ _byte_order_str platform base ++ String (kind base) ""
           ++ fmt_d (itemsize base) ++ "', " ++ tuple_str shape ++ "))").
Proof.
  intros Hf Hs Hbf Hbs Ht.
  assert (Hsub : _subarray_str platform d
                 = Ok ("('" ++ _byte_order_str platform base ++ String (kind base) ""
                       ++ fmt_d (itemsize base) ++ "', " ++ tuple_str shape ++ ")")).
  { unfold _subarray_str, _subarray_str_open. rewrite Hs.
    rewrite (numeric_scalar_repr platform base false true m n f Hbf Hbs Ht).
    cbn [orb]. string_norm. reflexivity. }
  split; [|split].
  - intros include_align short. rewrite _construction_repr_eq, Hf, Hs. exact Hsub.
  - unfold __str__. rewrite Hf, Hs. exact Hsub.
  - unfold __repr__. rewrite _construction_repr_eq, Hf, Hs. cbn [is_not_None].
    rewrite Hsub. string_norm. reflexivity.
Qed.

Lemma subarray_of_numeric_witness :
  __repr__ LittleEndian Samples.int32_2x3 = Ok "dtype(('<i4', (2, 3)))".
Proof.
  rewrite (proj2 (proj2 (subarray_of_numeric LittleEndian Samples.int32_2x3 Samples.int32
                           [2; 3] "numpy" "int32" false
                           eq_refl eq_refl eq_refl eq_refl eq_refl))).
  reflexivity.
Defined.

(** ** More on packed layouts and the list form *)

Lemma _is_packed_loop_from_sizes (flds1 : list field) : forall flds2 t size1 size2,
  map (fun nf => itemsize (fld_dtype_of nf)) flds1
  = map (fun nf => itemsize (fld_dtype_of nf)) flds2 ->
  _is_packed_loop t flds1 size1 = true ->
  _is_packed_loop t flds2 size2 = true ->
  map fld_offset_of flds1 = map fld_offset_of flds2 /\ size1 = size2.
Proof.
  induction flds1 as [|[n1 [[d1 o1] t1]] flds1 IH];
    intros [|[n2 [[d2 o2] t2]] flds2] t size1 size2 Hsz H1 H2; try discriminate.
  - cbn [_is_packed_loop] in H1, H2. split; [reflexivity|].
    destruct (Z.eqb_spec t size1); [|discriminate].
    destruct (Z.eqb_spec t size2); [|discriminate]. congruence.
  - cbn [_is_packed_loop _unpack_field] in H1, H2.
    cbn [map fld_dtype_of fst snd] in Hsz. injection Hsz as Hd Hsz.
    destruct (Z.eqb_spec o1 t) as [->|]; [|discriminate].
    destruct (Z.eqb_spec o2 t) as [->|]; [|discriminate].
    cbn [negb] in H1, H2. rewrite <- Hd in H2.
    destruct (IH flds2 _ size1 size2 Hsz H1 H2) as [Hoff Hsize].
    split; [|exact Hsize].
    cbn [map fld_offset_of fst snd]. now rewrite Hoff.
Qed.

(** X9. The layout of a packed descriptor is fixed by the item sizes of its
    fields: two structured descriptors that [_is_packed] accepts and whose
    fields have the same sizes, in order, have the same offsets and the same
    item size. (So a list of field names and types is enough to rebuild a
    packed layout, as the docstring of [_is_packed] says.) *)
Theorem packed_layout_from_sizes (d1 d2 : dtype) (flds1 flds2 : list field) :
  fields d1 = Some flds1 -> fields d2 = Some flds2 ->
  map (fun nf => itemsize (fld_dtype_of nf)) flds1
  = map (fun nf => itemsize (fld_dtype_of nf)) flds2 ->
  _is_packed d1 = Ok true -> _is_packed d2 = Ok true ->
  map fld_offset_of flds1 = map fld_offset_of flds2 /\ itemsize d1 = itemsize d2.
Proof.
  intros Hf1 Hf2 Hsz H1 H2.
  rewrite (_is_packed_structured _ _ Hf1) in H1.
  rewrite (_is_packed_structured _ _ Hf2) in H2.
  injection H1 as H1. injection H2 as H2.
  exact (_is_packed_loop_from_sizes flds1 flds2 0 _ _ Hsz H1 H2).
Qed.

Lemma packed_layout_from_sizes_witness :
  map fld_offset_of [("a", (Samples.int32, 0, None)); ("b", (Samples.int32, 4, Some "t1"));
                     ("c", (Samples.int32, 8, None))]
  = map fld_offset_of [("a", (Samples.int32, 0, None)); ("b", (Samples.int32, 4, Some "t1"));
                       ("c", (Samples.int32, 8, None))]
  /\ itemsize (Samples.three_ints true 12) = itemsize (Samples.three_ints false 12).
Proof.
  apply (packed_layout_from_sizes (Samples.three_ints true 12) (Samples.three_ints false 12));
    reflexivity.
Defined.

Lemma _struct_list_item_text (platform : endianness) (nf : field) :
  _struct_list_item_open (_construction_repr platform) nf
  = (r <- _construction_repr platform (fst (list_item_target nf)) false true ;;
     Ok (list_item (fst nf) (fld_title_of nf) r (snd (list_item_target nf)))).
Proof.
  rewrite _struct_list_item_eq. unfold list_item_target, list_item.
  destruct (subdtype (fld_dtype_of nf)) as [[base shape]|]; cbn [fst snd];
    destruct (_construction_repr platform _ false true) as [r|e]; try reflexivity;
    cbn [bind]; rewrite ?append_assoc; reflexivity.
Qed.

Lemma mapM_bind_combine {A B C : Type} (f : A -> res B) (g : A -> B -> C) (l : list A) :
  mapM (fun a => b <- f a ;; Ok (g a b)) l
  = (bs <- mapM f l ;; Ok (map (fun ab => g (fst ab) (snd ab)) (combine l bs))).
Proof.
  induction l as [|a l IH]; [reflexivity|].
  cbn [mapM]. rewrite IH. destruct (f a) as [b|e]; [|reflexivity].
  cbn [bind]. destruct (mapM f l) as [bs|e]; reflexivity.
Qed.

(** X10. For a structured descriptor, [_struct_list_str] emits one tuple per
    field, in declaration order, between brackets: [(name, format)], or
    [((title, name), format)] for a field with a title, the format being
    the short construction repr of the field's type; for a subarray field
    the tuple is [(name, format, shape)] with the format of the base. It
    raises only what the rendering of such a type raises, and for no fields
    it answers [[]]. *)
Theorem struct_list_str_spec (platform : endianness) (d : dtype) (flds : list field) :
  fields d = Some flds ->
  (forall formats,
     Forall2 (fun nf fmt =>
                _construction_repr platform (fst (list_item_target nf)) false true = Ok fmt)
       flds formats ->
     _struct_list_str platform d
     = Ok ("["
           ++ join ", "
                (map (fun nr => list_item (fst (fst nr)) (fld_title_of (fst nr)) (snd nr)
                                  (snd (list_item_target (fst nr))))
                   (combine flds formats))
           ++ "]"))
  /\ (forall s, _struct_list_str platform d = Ok s ->
      exists formats,
        Forall2 (fun nf fmt =>
                   _construction_repr platform (fst (list_item_target nf)) false true = Ok fmt)
          flds formats
        /\ s = "["
               ++ join ", "
                    (map (fun nr => list_item (fst (fst nr)) (fld_title_of (fst nr)) (snd nr)
                                      (snd (list_item_target (fst nr))))
                       (combine flds formats))
               ++ "]")
  /\ (forall e, _struct_list_str platform d = Raise e ->
      exists nf, In nf flds
                 /\ _construction_repr platform (fst (list_item_target nf)) false true
                    = Raise e)
  /\ (flds = [] -> _struct_list_str platform d = Ok "[]").
Proof.
  intros Hf.
  assert (Heq : _struct_list_str platform d
                = (formats <- mapM (fun nf => _construction_repr platform
                                                (fst (list_item_target nf)) false true) flds ;;
                   Ok ("["
                       ++ join ", "
                            (map (fun nr => list_item (fst (fst nr)) (fld_title_of (fst nr))
                                              (snd nr) (snd (list_item_target (fst nr))))
                               (combine flds formats))
                       ++ "]"))).
  { unfold _struct_list_str, _struct_list_str_open. rewrite Hf.
    rewrite (mapM_ext_Forall _
               (fun nf => r <- _construction_repr platform (fst (list_item_target nf))
                                 false true ;;
                          Ok (list_item (fst nf) (fld_title_of nf) r
                                (snd (list_item_target nf)))))
      by (apply Forall_forall; intros nf _; apply _struct_list_item_text).
    rewrite (mapM_bind_combine
               (fun nf => _construction_repr platform (fst (list_item_target nf)) false true)
               (fun nf r => list_item (fst nf) (fld_title_of nf) r
                              (snd (list_item_target nf)))).
    destruct (mapM _ flds) as [formats|e]; reflexivity. }
  rewrite Heq. split; [|split; [|split]].
  - intros formats H. apply mapM_Forall2 in H. rewrite H. reflexivity.
  - intros s H. apply bind_inv_Ok in H as [formats [Hm [= <-]]].
    exists formats. split; [now apply mapM_Forall2 | reflexivity].
  - intros e H. apply bind_inv_Raise in H as [H | [formats [_ H]]]; [|discriminate].
    now apply mapM_Raise in H.
  - intros ->. reflexivity.
Qed.

Lemma struct_list_str_spec_witness :
  _struct_list_str LittleEndian (Samples.record false)
  = Ok "[('x', [('a', '<i4'), (('t1', 'b'), '<i4'), ('c', '<i4')]), ('y', '<i4', (2, 3))]".
Proof.
  rewrite (proj1 (struct_list_str_spec LittleEndian (Samples.record false) _ eq_refl)
             ["[('a', '<i4'), (('t1', 'b'), '<i4'), ('c', '<i4')]"; "'<i4'"]).
  - reflexivity.
  - repeat constructor.
Defined.

(** X11. The display string of a structured descriptor whose aligned-struct
    flag is set is always the dict form with ['aligned':True], also when the
    layout is packed (where the repr shows the list form). *)
Theorem str_of_aligned_struct (platform : endianness) (d : dtype) (flds : list field) :
  fields d = Some flds ->
  isalignedstruct d = true ->
  __str__ platform d
  = (formats <- mapM (fun nf => _construction_repr platform (fld_dtype_of nf) false true)
                  flds ;;
     Ok (if negb (type d == void)
         then type_identity_wrap (type d)
                (dict_form (map fst flds) formats (map fld_offset_of flds)
                   (map fld_title_of flds) (itemsize d) true)
         else dict_form (map fst flds) formats (map fld_offset_of flds)
                (map fld_title_of flds) (itemsize d) true)).
Proof.
  intros Hf Hal. unfold __str__. rewrite Hf. cbn [is_not_None].
  rewrite _struct_str_eq. unfold _struct_sub, _struct_sub_open.
  rewrite Hal. cbn [andb negb].
  pose proof (_struct_dict_str_eq platform d flds true Hf) as Hd.
  unfold _struct_dict_str in Hd. rewrite Hd, Hal. cbn [andb].
  destruct (mapM _ flds) as [formats|e]; [|reflexivity].
  cbn [bind]. destruct (negb (type d == void)); reflexivity.
Qed.

Lemma str_of_aligned_struct_witness :
  __str__ LittleEndian (Samples.one_int true)
  = Ok "{'names':['x'], 'formats':['<i4'], 'offsets':[0], 'itemsize':4, 'aligned':True}".
Proof.
  rewrite (str_of_aligned_struct LittleEndian (Samples.one_int true) _ eq_refl eq_refl).
  reflexivity.
Defined.

(** ** Scalar descriptors *)

(** X12. What [_construction_repr] returns for a scalar descriptor is a
    string between single quotes, except on the [isbuiltin == 2] branch,
    where it is the bare [__name__] of the scalar class. *)
Theorem scalar_repr_quoted (platform : endianness) (d : dtype)
    (include_align short : bool) (s : string) :
  is_leaf d = true ->
  _construction_repr platform d include_align short = Ok s ->
  (starts_with "'" s = true /\ last_char s = Some "'"%char)
  \/ (unnamed_class (type d) = true /\ issubdtype_number d = false
      /\ isbuiltin d = 2 /\ s = __name__ (type d)).
Proof.
  intros Hl. apply is_leaf_true in Hl as [Hf Hs].
  rewrite _construction_repr_eq, Hf, Hs. cbn [is_not_None].
  unfold _scalar_repr, issubdtype_number, quoted.
  destruct (type d) as [| | | | | | |m n u f]; cbn [scalar_type_eqb issubclass_number];
    try (repeat match goal with |- context [if ?c then _ else _] => destruct c end;
         intros [= <-]; left; (split; [reflexivity | last_char_tac])).
  destruct u.
  - destruct (short || _).
    + intros [= <-]. left. split; [reflexivity | last_char_tac].
    + destruct (kindstrs (kind d)); [|discriminate].
      intros [= <-]. left. split; [reflexivity | last_char_tac].
  - destruct (Z.eqb_spec (isbuiltin d) 2); [|discriminate].
    intros [= <-]. right. auto.
Qed.

Lemma scalar_repr_quoted_witness :
  _construction_repr LittleEndian MoreSamples.rational true false = Ok "rational"
  /\ (starts_with "'" "'<f8'" = true /\ last_char "'<f8'" = Some "'"%char).
Proof.
  split; [reflexivity|].
  destruct (scalar_repr_quoted LittleEndian MoreSamples.float64_little true false "'<f8'"
              eq_refl eq_refl) as [H | [_ [_ [H _]]]]; [exact H | discriminate H].
Defined.

(** X13. A scalar of one of the flexible classes with item size 0 is
    rendered without a length (['S'], ['V'], ['<order>U']); otherwise with
    its item size for bytes and void, and with its item size divided by 4,
    rounded down, for unicode. Neither [short] nor [include_align] matters,
    and the byte order only for unicode. *)
Theorem flexible_scalar_repr (platform : endianness) (d : dtype)
    (include_align short : bool) :
  is_leaf d = true ->
  (type d = string_ ->
   _construction_repr platform d include_align short
   = Ok (if itemsize d =? 0 then "'S'" else "'S" ++ fmt_d (itemsize d) ++ "'"))
  /\ (type d = void ->
      _construction_repr platform d include_align short
      = Ok (if itemsize d =? 0 then "'V'" else "'V" ++ fmt_d (itemsize d) ++ "'"))
  /\ (type d = unicode_ ->
      _construction_repr platform d include_align short
      = Ok (if itemsize d =? 0 then "'" ++ _byte_order_str platform d ++ "U'"
            else "'" ++ _byte_order_str platform d ++ "U"
                 ++ fmt_d (Z.quot (itemsize d) 4) ++ "'")
      /\ (forall n r, 0 <= n -> 0 <= r < 4 -> itemsize d = 4 * n + r ->
          Z.quot (itemsize d) 4 = n)).
Proof.
  intros Hl. apply is_leaf_true in Hl as [Hf Hs].
  rewrite _construction_repr_eq, Hf, Hs. cbn [is_not_None].
  unfold _scalar_repr, _isunsized, quoted.
  split; [|split]; intros ->; cbn [scalar_type_eqb].
  - destruct (itemsize d =? 0); string_norm; reflexivity.
  - destruct (itemsize d =? 0); string_norm; reflexivity.
  - split.
    + destruct (itemsize d =? 0); string_norm; reflexivity.
    + intros n r Hn Hr ->. rewrite Z.quot_div_nonneg by lia.
      symmetry. apply (Z.div_unique_pos (4 * n + r) 4 n r); lia.
Qed.

Lemma flexible_scalar_repr_witness :
  _construction_repr LittleEndian
    (mk_dtype string_ "S" "|" 10 true 1 false "bytes80" "|S10" None None) true false
  = Ok "'S10'"
  /\ _construction_repr LittleEndian
       (mk_dtype string_ "S" "|" 0 true 1 false "bytes" "|S0" None None) true false
     = Ok "'S'".
Proof.
  split.
  - apply (proj1 (flexible_scalar_repr LittleEndian
                    (mk_dtype string_ "S" "|" 10 true 1 false "bytes80" "|S10" None None)
                    true false eq_refl)).
    reflexivity.
  - apply (proj1 (flexible_scalar_repr LittleEndian
                    (mk_dtype string_ "S" "|" 0 true 1 false "bytes" "|S0" None None)
                    true false eq_refl)).
    reflexivity.
Defined.

(** X14. The rendering of a numeric scalar depends on the platform only
    through the short spelling of the byte order ['='] (and the swapped
    marker ['s']): [__repr__] of a numeric scalar whose byte order is not
    ['s'] is the same on a little-endian and on a big-endian platform. *)
Theorem numeric_repr_portable (d : dtype) (m n : string) (f : bool) :
  fields d = None -> subdtype d = None ->
  type d = scalar_class m n true f ->
  byteorder d <> "s" ->
  __repr__ LittleEndian d = __repr__ BigEndian d.
Proof.
  intros Hf Hs Ht Hbo. unfold __repr__. rewrite Hf. cbn [is_not_None].
  rewrite !(numeric_scalar_repr _ d true false m n f Hf Hs Ht). cbn [orb].
  unfold _byte_order_str.
  destruct (String.eqb_spec (byteorder d) "="); [reflexivity|].
  apply String.eqb_neq in Hbo. rewrite Hbo.
  destruct (String.eqb_spec (byteorder d) "|"); reflexivity.
Qed.

Lemma numeric_repr_portable_witness :
  __repr__ LittleEndian MoreSamples.int32_big = __repr__ BigEndian MoreSamples.int32_big
  /\ __repr__ LittleEndian Samples.float64 = __repr__ BigEndian Samples.float64.
Proof.
  split.
  - apply (numeric_repr_portable MoreSamples.int32_big "numpy" "int32" false);
      [reflexivity | reflexivity | reflexivity | discriminate].
  - apply (numeric_repr_portable Samples.float64 "numpy" "float64" false);
      [reflexivity | reflexivity | reflexivity | discriminate].
Defined.

Lemma _is_packed_loop_bounds (flds : list field) : forall t size,
  Forall (fun nf => 0 <= itemsize (fld_dtype_of nf)) flds ->
  _is_packed_loop t flds size = true ->
  t <= size
  /\ Forall (fun nf => t <= fld_offset_of nf
                       /\ fld_offset_of nf + itemsize (fld_dtype_of nf) <= size) flds.
Proof.
  induction flds as [|[n [[dt off] ti]] flds IH]; intros t size Hsz H.
  - cbn [_is_packed_loop] in H. destruct (Z.eqb_spec t size); [|discriminate].
    split; [lia | constructor].
  - cbn [_is_packed_loop _unpack_field] in H.
    destruct (Z.eqb_spec off t) as [->|]; [|discriminate]. cbn [negb] in H.
    inversion Hsz as [|x l Hx Hl]; subst. unfold fld_dtype_of in Hx. cbn [fst snd] in Hx.
    destruct (IH _ _ Hl H) as [Hle Hall]. split; [lia|].
    constructor.
    + unfold fld_offset_of, fld_dtype_of. cbn [fst snd]. lia.
    + eapply Forall_impl; [|exact Hall]. intros nf [H1 H2]. split; [lia | exact H2].
Qed.

(** X15. In a structured descriptor that [_is_packed] accepts and whose
    fields have item sizes that are not negative, every field lies within
    the item size of the descriptor: its offset is at least 0 and its end is
    at most [dtype.itemsize]; and a descriptor without fields is packed
    exactly when its item size is 0. *)
Theorem packed_fields_in_bounds (d : dtype) (flds : list field) :
  fields d = Some flds ->
  (Forall (fun nf => 0 <= itemsize (fld_dtype_of nf)) flds ->
   _is_packed d = Ok true ->
   0 <= itemsize d
   /\ Forall (fun nf => 0 <= fld_offset_of nf
                        /\ fld_offset_of nf + itemsize (fld_dtype_of nf) <= itemsize d) flds)
  /\ (flds = [] -> (_is_packed d = Ok true <-> itemsize d = 0)).
Proof.
  intros Hf. rewrite (_is_packed_structured _ _ Hf). split.
  - intros Hsz [= H]. exact (_is_packed_loop_bounds flds 0 (itemsize d) Hsz H).
  - intros ->. cbn [_is_packed_loop]. destruct (Z.eqb_spec 0 (itemsize d)); cbn [negb].
    + split; [lia | reflexivity].
    + split; [discriminate | lia].
Qed.

Lemma packed_fields_in_bounds_witness :
  0 <= itemsize (Samples.three_ints false 12)
  /\ Forall (fun nf => 0 <= fld_offset_of nf
                       /\ fld_offset_of nf + itemsize (fld_dtype_of nf)
                          <= itemsize (Samples.three_ints false 12))
       [("a", (Samples.int32, 0, None)); ("b", (Samples.int32, 4, Some "t1"));
        ("c", (Samples.int32, 8, None))].
Proof.
  apply (proj1 (packed_fields_in_bounds (Samples.three_ints false 12) _ eq_refl)).
  - repeat constructor; discriminate.
  - reflexivity.
Defined.

(** ** Reading the repr back *)

(** *** Decimal numbers *)







(** *** Quoted strings *)








(** *** Sequences *)











(** *** Well-formed descriptors *)





















(** *** The forms of the short rendering *)






(** *** The items of the list form *)







(** *** The dict form *)



(** *** Reading a short rendering back *)










(** *** The canonical repr of a well-formed descriptor *)






(** ** The layout in the canonical repr *)

Example well_formed_samples :
  forallb (well_formed LittleEndian 8)
    [Samples.int32; Samples.float64; Samples.three_ints true 16;
     Samples.three_ints false 12; Samples.one_int true; Samples.int32_2x3;
     Samples.nested true; Samples.nested false; Samples.datetime_generic;
     MoreSamples.datetime_ns; MoreSamples.int32_big; MoreSamples.empty_title]
  = true.
Proof. reflexivity. Qed.


